(** * Shape and type inference of the ONNX reduction operators

    A shallow embedding of the two inference rules registered in
    [onnx/defs/reduction/defs.cc]:

    - the rule attached by [ReduceDocGenerator] (ReduceMax, ReduceSum, ...),
      which collapses a list of axes, and
    - the rule attached by [ArgReduceDocGenerator] (ArgMax, ArgMin), which
      collapses one axis and forces the [INT64] element type.

    The protobuf messages the rules read and write are modelled as records
    and inductive types; the inference context is passed explicitly and the
    rule returns the updated context. *)

From stdpp Require Import gmap strings list.

Local Open Scope Z_scope.

(** ** Protobuf messages *)

Module Proto.

(** Modelled from the spec: the element kinds of [TensorProto.DataType]
    (declared in onnx.proto, which is not part of the sources at hand).  The
    rules name only [TensorProto_DataType_INT64], the "fixed 64-bit integer
    kind"; the other kinds are only ever copied. *)
Inductive TensorProto_DataType : Type :=
  | TensorProto_DataType_UNDEFINED
  | TensorProto_DataType_FLOAT
  | TensorProto_DataType_UINT8
  | TensorProto_DataType_INT8
  | TensorProto_DataType_UINT16
  | TensorProto_DataType_INT16
  | TensorProto_DataType_INT32
  | TensorProto_DataType_INT64
  | TensorProto_DataType_STRING
  | TensorProto_DataType_BOOL
  | TensorProto_DataType_FLOAT16
  | TensorProto_DataType_DOUBLE
  | TensorProto_DataType_UINT32
  | TensorProto_DataType_UINT64
  | TensorProto_DataType_COMPLEX64
  | TensorProto_DataType_COMPLEX128.

(** [TensorShapeProto.Dimension]: a oneof that is a concrete size
    ([dim_value]), a symbolic name ([dim_param]), or not set (unknown). *)
Inductive Dimension : Type :=
  | dim_not_set
  | dim_value (v : Z)
  | dim_param (s : string).

(** [TensorShapeProto]: the repeated field [dim]. *)
Record TensorShapeProto : Type := { dim : list Dimension }.

(** [TypeProto.Tensor]: two optional fields. *)
Record TypeProto_Tensor : Type :=
  { elem_type : option TensorProto_DataType;
    shape : option TensorShapeProto }.

(** [TypeProto]: the oneof [value].  The rules distinguish
    [VALUE_NOT_SET], [kTensorType] and every other case; the other members of
    the oneof are kept by their field number. *)
Inductive TypeProto : Type :=
  | VALUE_NOT_SET
  | kTensorType (t : TypeProto_Tensor)
  | kOtherType (field : positive).

(** [AttributeProto]: the two fields the rules read, [i()] and [ints()]; both
    have the protobuf default (0, empty) when the attribute carries another
    kind of value. *)
Record AttributeProto : Type := { attr_i : Z; attr_ints : list Z }.

#[global] Instance Dimension_eq_dec : EqDecision Dimension.
Proof. solve_decision. Defined.
#[global] Instance TensorProto_DataType_eq_dec : EqDecision TensorProto_DataType.
Proof. solve_decision. Defined.
#[global] Instance TensorShapeProto_eq_dec : EqDecision TensorShapeProto.
Proof. solve_decision. Defined.
#[global] Instance TypeProto_Tensor_eq_dec : EqDecision TypeProto_Tensor.
Proof. solve_decision. Defined.
#[global] Instance TypeProto_eq_dec : EqDecision TypeProto.
Proof. solve_decision. Defined.

(** Default instances, as returned by the const accessors of an unset
    field. *)
Definition TensorShapeProto_default : TensorShapeProto := {| dim := [] |}.
Definition TypeProto_Tensor_default : TypeProto_Tensor :=
  {| elem_type := None; shape := None |}.

(** [shape.dim_size()] *)
Definition dim_size (s : TensorShapeProto) : Z := Z.of_nat (length (dim s)).

(** [shape.dim(i)], for [0 <= i < dim_size()]. *)
Definition dim_at (s : TensorShapeProto) (i : Z) : Dimension :=
  nth (Z.to_nat i) (dim s) dim_not_set.

(** [auto dim = shape->add_dim(); dim->CopyFrom(d)]: a new last element that
    is a copy of [d]. *)
Definition add_dim_copy (d : Dimension) (s : TensorShapeProto) : TensorShapeProto :=
  {| dim := dim s ++ [d] |}.

(** [auto dim = shape->add_dim(); dim->set_dim_value(v)] *)
Definition add_dim_value (v : Z) (s : TensorShapeProto) : TensorShapeProto :=
  {| dim := dim s ++ [dim_value v] |}.

(** [t.tensor_type()]: the member when the oneof holds it, the default
    instance otherwise. *)
Definition tensor_type (t : TypeProto) : TypeProto_Tensor :=
  match t with
  | kTensorType x => x
  | _ => TypeProto_Tensor_default
  end.

(** [x.shape()] *)
Definition shape_or_default (x : TypeProto_Tensor) : TensorShapeProto :=
  match shape x with
  | Some s => s
  | None => TensorShapeProto_default
  end.

(** [t->mutable_tensor_type()] followed by the mutation [f]: the oneof is
    switched to [kTensorType] (any other member is cleared) and [f] acts on
    the tensor message, which starts from the default instance when the oneof
    did not hold a tensor type. *)
Definition mutable_tensor_type (f : TypeProto_Tensor → TypeProto_Tensor)
    (t : TypeProto) : TypeProto :=
  kTensorType (f (tensor_type t)).

(** [x->mutable_shape()] followed by the mutation [f]: the field is marked as
    present. *)
Definition mutable_shape (f : TensorShapeProto → TensorShapeProto)
    (x : TypeProto_Tensor) : TypeProto_Tensor :=
  {| elem_type := elem_type x; shape := Some (f (shape_or_default x)) |}.

(** [x->set_elem_type(e)] *)
Definition set_elem_type (e : TensorProto_DataType)
    (x : TypeProto_Tensor) : TypeProto_Tensor :=
  {| elem_type := Some e; shape := shape x |}.

(** The shape a type descriptor carries, if any. *)
Definition type_shape (t : TypeProto) : option TensorShapeProto :=
  match t with
  | kTensorType x => shape x
  | _ => None
  end.

(** The element type a type descriptor carries, if any. *)
Definition type_elem_type (t : TypeProto) : option TensorProto_DataType :=
  match t with
  | kTensorType x => elem_type x
  | _ => None
  end.

End Proto.

Export Proto.

(** ** Inference context *)

Module ShapeInference.

(** [InferenceContext], restricted to what a rule of an operator with one
    input and one output touches: the attributes of the node, the type of
    input 0 ([None] when [getInputType(0)] is a null pointer) and the type of
    output 0, which the rule mutates. *)
Record InferenceContext : Type :=
  { attributes : gmap string AttributeProto;
    inputType : option TypeProto;
    outputType : TypeProto }.

(** [ctx.getAttribute(name)] *)
Definition getAttribute (ctx : InferenceContext) (name : string)
    : option AttributeProto :=
  attributes ctx !! name.

(** A mutation of [*ctx.getOutputType(0)]. *)
Definition update_output (f : TypeProto → TypeProto) (ctx : InferenceContext)
    : InferenceContext :=
  {| attributes := attributes ctx;
     inputType := inputType ctx;
     outputType := f (outputType ctx) |}.

(** The node with one attribute set (used to compare invocations). *)
Definition with_attribute (name : string) (a : AttributeProto)
    (ctx : InferenceContext) : InferenceContext :=
  {| attributes := <[name := a]> (attributes ctx);
     inputType := inputType ctx;
     outputType := outputType ctx |}.

(** [ctx.getInputType(0)->tensor_type().shape()], read after
    [hasNInputShapes(ctx, 1)] holds. *)
Definition input_shape_of (ctx : InferenceContext) : TensorShapeProto :=
  match inputType ctx with
  | Some t => shape_or_default (tensor_type t)
  | None => TensorShapeProto_default
  end.

(** Modelled from the spec: [hasNInputShapes(ctx, 1)], declared in the
    shape-inference header that is not part of the sources at hand.  It is the
    predicate "the shape of input 0 is available": the input has a type, the
    type is a tensor type, and the tensor type has a shape. *)
Definition hasNInputShapes (ctx : InferenceContext) : bool :=
  match inputType ctx with
  | Some (kTensorType x) => bool_decide (is_Some (shape x))
  | _ => false
  end.

(** The element type of input 0, unset when the input has no tensor type. *)
Definition input_elem_type (ctx : InferenceContext) : option TensorProto_DataType :=
  match inputType ctx with
  | Some t => type_elem_type t
  | None => None
  end.

(** Modelled from the spec: [propagateElemTypeFromInputToOutput(ctx, 0, 0)],
    declared in the shape-inference header that is not part of the sources at
    hand.  The spec gives it as an unconditional pass-through: the output
    element type becomes the input element type; nothing else of the output
    descriptor (its shape) is written. *)
Definition propagateElemTypeFromInputToOutput (ctx : InferenceContext)
    : InferenceContext :=
  update_output
    (mutable_tensor_type
       (λ x, {| elem_type := input_elem_type ctx; shape := shape x |}))
    ctx.

End ShapeInference.

Export ShapeInference.

(** ** The inference rules *)

Module Reduction.

(** [for (int i = start; i < start + count; ++i) body(i)] on a state [s]. *)
Fixpoint for_range {S : Type} (count : nat) (i : Z) (body : Z → S → S) (s : S) : S :=
  match count with
  | O => s
  | S count' => for_range count' (i + 1) body (body i s)
  end.

(** The [keepdims] attribute, 1 when absent (both rules). *)
Definition get_keep_dims (ctx : InferenceContext) : Z :=
  match getAttribute ctx "keepdims" with
  | Some attr_proto => attr_i attr_proto
  | None => 1
  end.

(** *** Reduce family *)

(** [axes.assign(ints)] when the attribute is present, empty otherwise. *)
Definition get_axes (ctx : InferenceContext) : list Z :=
  match getAttribute ctx "axes" with
  | Some axes_proto => attr_ints axes_proto
  | None => []
  end.

(** [if (axes[i] < 0) axes[i] += input_ndim], for every [i].  The addends are
    a negative 64-bit value and a rank between 0 and [INT_MAX], so the sum
    stays in the 64-bit range and no wrap-around occurs. *)
Definition normalize_axis (input_ndim : Z) (a : Z) : Z :=
  if a <? 0 then a + input_ndim else a.

Definition normalize_axes (input_ndim : Z) (axes : list Z) : list Z :=
  map (normalize_axis input_ndim) axes.

(** [axes.empty()] *)
Definition axes_empty (axes : list Z) : bool :=
  match axes with [] => true | _ => false end.

(** [std::find(axes.begin(), axes.end(), i) == axes.end()] *)
Definition not_found (axes : list Z) (i : Z) : bool :=
  negb (existsb (Z.eqb i) axes).

(** The body of the reduce loop at index [i]. *)
Definition reduce_body (axes : list Z) (keep_dims : Z)
    (input_shape : TensorShapeProto) (i : Z) (output_shape : TensorShapeProto)
    : TensorShapeProto :=
  if negb (axes_empty axes) && not_found axes i then
    add_dim_copy (dim_at input_shape i) output_shape
  else if keep_dims =? 1 then
    add_dim_value 1 output_shape
  else
    output_shape.

(** The reduce loop run for its first [n] iterations. *)
Definition reduce_loop (axes : list Z) (keep_dims : Z)
    (input_shape : TensorShapeProto) (n : nat) (output_shape : TensorShapeProto)
    : TensorShapeProto :=
  for_range n 0 (reduce_body axes keep_dims input_shape) output_shape.

(** The inference function registered by [ReduceDocGenerator]. *)
Definition ReduceInference (ctx : InferenceContext) : InferenceContext :=
  let ctx := propagateElemTypeFromInputToOutput ctx in
  if negb (hasNInputShapes ctx) then ctx
  else
    let keep_dims := get_keep_dims ctx in
    let input_shape := input_shape_of ctx in
    let input_ndim := dim_size input_shape in
    let axes := normalize_axes input_ndim (get_axes ctx) in
    update_output
      (mutable_tensor_type
         (mutable_shape
            (reduce_loop axes keep_dims input_shape (Z.to_nat input_ndim))))
      ctx.

(** *** Arg-reduce family *)

(** Lines 137-142: the output element type is set to [INT64] when the output
    type is a tensor type or is not set. *)
Definition set_output_int64 (ctx : InferenceContext) : InferenceContext :=
  match outputType ctx with
  | kTensorType _ | VALUE_NOT_SET =>
      update_output
        (mutable_tensor_type (set_elem_type TensorProto_DataType_INT64)) ctx
  | kOtherType _ => ctx
  end.

(** The [axis] attribute, 0 when absent; a negative value is shifted by the
    rank only when the attribute is present. *)
Definition get_axis (ctx : InferenceContext) (input_ndim : Z) : Z :=
  match getAttribute ctx "axis" with
  | Some axis_proto =>
      let axis := attr_i axis_proto in
      if axis <? 0 then axis + input_ndim else axis
  | None => 0
  end.

(** The body of the arg-reduce loop at index [i]. *)
Definition arg_body (axis : Z) (keep_dims : Z)
    (input_shape : TensorShapeProto) (i : Z) (output_shape : TensorShapeProto)
    : TensorShapeProto :=
  if negb (i =? axis) then
    add_dim_copy (dim_at input_shape i) output_shape
  else if keep_dims =? 1 then
    add_dim_value 1 output_shape
  else
    output_shape.

(** The arg-reduce loop run for its first [n] iterations. *)
Definition arg_loop (axis : Z) (keep_dims : Z)
    (input_shape : TensorShapeProto) (n : nat) (output_shape : TensorShapeProto)
    : TensorShapeProto :=
  for_range n 0 (arg_body axis keep_dims input_shape) output_shape.

(** The inference function registered by [ArgReduceDocGenerator]. *)
Definition ArgReduceInference (ctx : InferenceContext) : InferenceContext :=
  let ctx := set_output_int64 ctx in
  if negb (hasNInputShapes ctx) then ctx
  else
    let input_shape := input_shape_of ctx in
    let input_ndim := dim_size input_shape in
    let axis := get_axis ctx input_ndim in
    let keep_dims := get_keep_dims ctx in
    update_output
      (mutable_tensor_type
         (mutable_shape
            (arg_loop axis keep_dims input_shape (Z.to_nat input_ndim))))
      ctx.

End Reduction.

Export Reduction.

(** ** Observations on a context *)

(** The dimensions of the output shape, empty when no shape is set. *)
Definition output_dims (ctx : InferenceContext) : list Dimension :=
  dim (shape_or_default (tensor_type (outputType ctx))).

(** The rank of the available input shape. *)
Definition input_ndim (ctx : InferenceContext) : Z :=
  dim_size (input_shape_of ctx).

(** A tensor input of the given element type and dimensions. *)
Definition tensor_of (e : TensorProto_DataType) (dims : list Dimension) : TypeProto :=
  kTensorType {| elem_type := Some e; shape := Some {| dim := dims |} |}.

(** A node with the given attributes, input type and a fresh output. *)
Definition fresh_ctx (attrs : gmap string AttributeProto) (t : option TypeProto)
    : InferenceContext :=
  {| attributes := attrs; inputType := t; outputType := VALUE_NOT_SET |}.

Definition int_attr (v : Z) : AttributeProto := {| attr_i := v; attr_ints := [] |}.
Definition ints_attr (l : list Z) : AttributeProto := {| attr_i := 0; attr_ints := l |}.

(** What one iteration of the reduce loop appends. *)
Definition reduce_emit (axes : list Z) (keep_dims : Z)
    (input_shape : TensorShapeProto) (i : Z) : list Dimension :=
  if negb (axes_empty axes) && not_found axes i then [dim_at input_shape i]
  else if keep_dims =? 1 then [dim_value 1]
  else [].

(** What one iteration of the arg-reduce loop appends. *)
Definition arg_emit (axis : Z) (keep_dims : Z)
    (input_shape : TensorShapeProto) (i : Z) : list Dimension :=
  if negb (i =? axis) then [dim_at input_shape i]
  else if keep_dims =? 1 then [dim_value 1]
  else [].

(** The rank of the output shape (0 when no shape is set). *)
Definition output_rank (ctx : InferenceContext) : Z :=
  Z.of_nat (length (output_dims ctx)).

(** The axes list of the reduce rule after normalization. *)
Definition normalized_axes (ctx : InferenceContext) : list Z :=
  normalize_axes (input_ndim ctx) (get_axes ctx).


(** The output shape when the loop of the reduce rule reaches index [i]
    (after the iterations [0 .. i-1]). *)
Definition reduce_shape_at (ctx : InferenceContext) (i : Z) : TensorShapeProto :=
  reduce_loop (normalized_axes ctx) (get_keep_dims ctx) (input_shape_of ctx)
    (Z.to_nat i) (shape_or_default (tensor_type (outputType ctx))).

(** The next free slot of the output shape when the loop reaches index [i]. *)
Definition next_slot (ctx : InferenceContext) (i : Z) : nat :=
  length (dim (reduce_shape_at ctx i)).

(** The dimensions a rule adds to the output shape of [ctx]: what the output
    shape holds after the rule beyond the dimensions it held on entry. *)
Definition appended_by (rule : InferenceContext → InferenceContext)
    (ctx : InferenceContext) : list Dimension :=
  drop (length (output_dims ctx)) (output_dims (rule ctx)).

(** Index [i] takes the else branch of the reduce loop: the axes list is empty
    or [i] is found in it. *)
Definition is_reduced (axes : list Z) (i : Z) : bool :=
  axes_empty axes || negb (not_found axes i).

(** The [axis] attribute as declared on the node (0 when absent), before the
    shift of a negative value. *)
Definition declared_axis (ctx : InferenceContext) : Z :=
  match getAttribute ctx "axis" with
  | Some axis_proto => attr_i axis_proto
  | None => 0
  end.

(** The bounds of [int64_t] and of the [int] returned by [dim_size()]. *)
Definition in_int64 (z : Z) : Prop := - 2 ^ 63 ≤ z < 2 ^ 63.
Definition in_int (z : Z) : Prop := - 2 ^ 31 ≤ z < 2 ^ 31.

(** Sample nodes on which the statements below are instantiated. *)
Definition reduce_output_rank_ctx : InferenceContext :=
  fresh_ctx {[ "axes" := ints_attr [-1; 0; 2]; "keepdims" := int_attr 0 ]}
    (Some (tensor_of TensorProto_DataType_FLOAT
             [dim_value 2; dim_param "N"; dim_value 4])).

Definition arg_output_rank_ctx : InferenceContext :=
  fresh_ctx {[ "axis" := int_attr (-2); "keepdims" := int_attr 0 ]}
    (Some (tensor_of TensorProto_DataType_DOUBLE
             [dim_value 5; dim_not_set; dim_value 6])).

Definition unknown_input_shape_ctx : InferenceContext :=
  fresh_ctx {[ "axes" := ints_attr [0]; "axis" := int_attr 0 ]}
    (Some (kTensorType
             {| elem_type := Some TensorProto_DataType_FLOAT; shape := None |})).

Definition negative_axis_ctx : InferenceContext :=
  fresh_ctx {[ "keepdims" := int_attr 0 ]}
    (Some (tensor_of TensorProto_DataType_FLOAT
             [dim_value 2; dim_value 3; dim_value 4])).

Definition reduce_copies_ctx : InferenceContext :=
  fresh_ctx {[ "axes" := ints_attr [1]; "keepdims" := int_attr 0 ]}
    (Some (tensor_of TensorProto_DataType_FLOAT
             [dim_value 2; dim_value 3; dim_param "batch"; dim_not_set])).

Definition keepdims_ctx : InferenceContext :=
  fresh_ctx {[ "axes" := ints_attr [1]; "axis" := int_attr 1 ]}
    (Some (tensor_of TensorProto_DataType_FLOAT
             [dim_value 2; dim_value 3; dim_value 4])).

Definition out_of_range_axes_ctx : InferenceContext :=
  fresh_ctx {[ "axes" := ints_attr [7; -9]; "axis" := int_attr 12 ]}
    (Some (tensor_of TensorProto_DataType_FLOAT
             [dim_value 2; dim_param "N"; dim_value 4])).

Definition keepdims_default_ctx : InferenceContext :=
  fresh_ctx {[ "axes" := ints_attr [-1; 0] ]}
    (Some (tensor_of TensorProto_DataType_FLOAT
             [dim_value 2; dim_param "N"; dim_not_set; dim_value 4])).

Definition extreme_axes_ctx : InferenceContext :=
  fresh_ctx {[ "axes" := ints_attr [- 2 ^ 63; 2 ^ 63 - 1];
               "axis" := int_attr (- 2 ^ 63) ]}
    (Some (tensor_of TensorProto_DataType_FLOAT [dim_value 2; dim_value 3])).


(** The scenarios of the documentation, evaluated. *)
Example scenario_axes1_keep :
  output_dims
    (ReduceInference
       (fresh_ctx {[ "axes" := ints_attr [1]; "keepdims" := int_attr 1 ]}
          (Some (tensor_of TensorProto_DataType_FLOAT
                   [dim_value 2; dim_value 3; dim_value 4]))))
  = [dim_value 2; dim_value 1; dim_value 4].
Proof. vm_compute. reflexivity. Qed.

Example scenario_axes1_drop :
  output_dims
    (ReduceInference
       (fresh_ctx {[ "axes" := ints_attr [1]; "keepdims" := int_attr 0 ]}
          (Some (tensor_of TensorProto_DataType_FLOAT
                   [dim_value 2; dim_value 3; dim_value 4]))))
  = [dim_value 2; dim_value 4].
Proof. vm_compute. reflexivity. Qed.

Example scenario_argmax_negative_axis :
  outputType
    (ArgReduceInference
       (fresh_ctx {[ "axis" := int_attr (-1); "keepdims" := int_attr 0 ]}
          (Some (tensor_of TensorProto_DataType_FLOAT
                   [dim_value 5; dim_value 6]))))
  = tensor_of TensorProto_DataType_INT64 [dim_value 5].
Proof. vm_compute. reflexivity. Qed.

(** ** The loops append to the output shape *)

Section for_range_facts.
Context {S : Type}.
Implicit Types (body : Z → S → S) (s : S).

Lemma for_range_app body n m i s :
  for_range (n + m) i body s
  = for_range m (i + Z.of_nat n) body (for_range n i body s).
Proof.
  revert i s. induction n as [|n IH]; intros i s.
  - simpl. by replace (i + Z.of_nat 0) with i by lia.
  - cbn [Nat.add for_range]. rewrite IH. f_equal. lia.
Qed.

Lemma for_range_ext body1 body2 n i s :
  (∀ j t, body1 j t = body2 j t) →
  for_range n i body1 s = for_range n i body2 s.
Proof.
  intros Hext. revert i s. induction n as [|n IH]; intros i s; [done|].
  cbn [for_range]. by rewrite Hext, IH.
Qed.

Lemma for_range_snoc body n i s :
  for_range (Datatypes.S n) i body s
  = body (i + Z.of_nat n) (for_range n i body s).
Proof.
  replace (Datatypes.S n) with (n + 1)%nat by lia.
  by rewrite for_range_app.
Qed.
End for_range_facts.

Lemma reduce_body_dim axes keep_dims input_shape i s :
  dim (reduce_body axes keep_dims input_shape i s)
  = dim s ++ reduce_emit axes keep_dims input_shape i.
Proof.
  unfold reduce_body, reduce_emit.
  destruct (negb (axes_empty axes) && not_found axes i); [done|].
  destruct (keep_dims =? 1); [done|]. by rewrite app_nil_r.
Qed.

Lemma arg_body_dim axis keep_dims input_shape i s :
  dim (arg_body axis keep_dims input_shape i s)
  = dim s ++ arg_emit axis keep_dims input_shape i.
Proof.
  unfold arg_body, arg_emit.
  destruct (negb (i =? axis)); [done|].
  destruct (keep_dims =? 1); [done|]. by rewrite app_nil_r.
Qed.

Lemma appending_loop_dim (body : Z → TensorShapeProto → TensorShapeProto)
    (emit : Z → list Dimension) :
  (∀ i s, dim (body i s) = dim s ++ emit i) →
  ∀ n i s,
    dim (for_range n i body s) = dim s ++ flat_map emit (seqZ i (Z.of_nat n)).
Proof.
  intros Hbody n. induction n as [|n IH]; intros i s.
  - simpl. by rewrite app_nil_r.
  - cbn [for_range]. rewrite IH, Hbody, (seqZ_cons i) by lia.
    replace (Z.pred (Z.of_nat (S n))) with (Z.of_nat n) by lia.
    replace (Z.succ i) with (i + 1) by lia.
    simpl. by rewrite <- app_assoc.
Qed.

Lemma reduce_loop_dim axes keep_dims input_shape n s :
  dim (reduce_loop axes keep_dims input_shape n s)
  = dim s ++ flat_map (reduce_emit axes keep_dims input_shape) (seqZ 0 (Z.of_nat n)).
Proof. apply appending_loop_dim, reduce_body_dim. Qed.

Lemma arg_loop_dim axis keep_dims input_shape n s :
  dim (arg_loop axis keep_dims input_shape n s)
  = dim s ++ flat_map (arg_emit axis keep_dims input_shape) (seqZ 0 (Z.of_nat n)).
Proof. apply appending_loop_dim, arg_body_dim. Qed.

(** The single axis of the arg-reduce loop acts as the one-element axes
    list of the reduce loop. *)
Lemma arg_emit_reduce_emit axis keep_dims input_shape i :
  arg_emit axis keep_dims input_shape i
  = reduce_emit [axis] keep_dims input_shape i.
Proof.
  unfold arg_emit, reduce_emit, not_found. simpl.
  by rewrite orb_false_r.
Qed.

(** ** What the rules return when the input shape is available *)

Lemma ReduceInference_known ctx :
  hasNInputShapes ctx = true →
  outputType (ReduceInference ctx)
  = kTensorType
      {| elem_type := input_elem_type ctx;
         shape := Some
           (reduce_loop (normalize_axes (input_ndim ctx) (get_axes ctx))
              (get_keep_dims ctx) (input_shape_of ctx)
              (Z.to_nat (input_ndim ctx))
              (shape_or_default (tensor_type (outputType ctx)))) |}.
Proof.
  intros Hknown. unfold ReduceInference.
  replace (hasNInputShapes (propagateElemTypeFromInputToOutput ctx))
    with (hasNInputShapes ctx) by done.
  rewrite Hknown. done.
Qed.

Lemma ReduceInference_unknown ctx :
  hasNInputShapes ctx = false →
  ReduceInference ctx = propagateElemTypeFromInputToOutput ctx.
Proof.
  intros Hunknown. unfold ReduceInference.
  replace (hasNInputShapes (propagateElemTypeFromInputToOutput ctx))
    with (hasNInputShapes ctx) by done.
  by rewrite Hunknown.
Qed.

Lemma set_output_int64_frame ctx :
  attributes (set_output_int64 ctx) = attributes ctx
  ∧ inputType (set_output_int64 ctx) = inputType ctx.
Proof. unfold set_output_int64. by destruct (outputType ctx). Qed.

Lemma set_output_int64_shape ctx :
  shape_or_default (tensor_type (outputType (set_output_int64 ctx)))
  = shape_or_default (tensor_type (outputType ctx)).
Proof. destruct ctx as [attrs input [| |]]; done. Qed.

Lemma ArgReduceInference_known ctx :
  hasNInputShapes ctx = true →
  outputType (ArgReduceInference ctx)
  = kTensorType
      {| elem_type := elem_type (tensor_type (outputType (set_output_int64 ctx)));
         shape := Some
           (arg_loop (get_axis ctx (input_ndim ctx))
              (get_keep_dims ctx) (input_shape_of ctx)
              (Z.to_nat (input_ndim ctx))
              (shape_or_default (tensor_type (outputType ctx)))) |}.
Proof.
  intros Hknown. unfold ArgReduceInference.
  destruct (set_output_int64_frame ctx) as [Hattr Hin].
  replace (hasNInputShapes (set_output_int64 ctx)) with (hasNInputShapes ctx)
    by (unfold hasNInputShapes; by rewrite Hin).
  rewrite Hknown. cbn [negb outputType update_output].
  unfold mutable_tensor_type, mutable_shape. rewrite set_output_int64_shape.
  unfold input_ndim, get_axis, get_keep_dims, getAttribute, input_shape_of.
  by rewrite Hattr, Hin.
Qed.

Lemma ArgReduceInference_unknown ctx :
  hasNInputShapes ctx = false →
  ArgReduceInference ctx = set_output_int64 ctx.
Proof.
  intros Hunknown. unfold ArgReduceInference.
  destruct (set_output_int64_frame ctx) as [Hattr Hin].
  replace (hasNInputShapes (set_output_int64 ctx)) with (hasNInputShapes ctx)
    by (unfold hasNInputShapes; by rewrite Hin).
  by rewrite Hunknown.
Qed.

Lemma ReduceInference_dims ctx :
  hasNInputShapes ctx = true →
  output_dims (ReduceInference ctx)
  = output_dims ctx
    ++ flat_map
         (reduce_emit (normalize_axes (input_ndim ctx) (get_axes ctx))
            (get_keep_dims ctx) (input_shape_of ctx))
         (seqZ 0 (input_ndim ctx)).
Proof.
  intros Hknown. unfold output_dims.
  rewrite (ReduceInference_known _ Hknown). cbn [tensor_type shape_or_default shape].
  rewrite reduce_loop_dim, Z2Nat.id; [done|]. unfold input_ndim, dim_size. lia.
Qed.

Lemma ArgReduceInference_dims ctx :
  hasNInputShapes ctx = true →
  output_dims (ArgReduceInference ctx)
  = output_dims ctx
    ++ flat_map
         (arg_emit (get_axis ctx (input_ndim ctx))
            (get_keep_dims ctx) (input_shape_of ctx))
         (seqZ 0 (input_ndim ctx)).
Proof.
  intros Hknown. unfold output_dims.
  rewrite (ArgReduceInference_known _ Hknown). cbn [tensor_type shape_or_default shape].
  rewrite arg_loop_dim, Z2Nat.id; [done|]. unfold input_ndim, dim_size. lia.
Qed.

(** ** Counting the appended dimensions *)

Lemma not_found_true axes i : not_found axes i = true ↔ i ∉ axes.
Proof.
  unfold not_found. rewrite negb_true_iff, <- not_true_iff_false, existsb_exists.
  split.
  - intros Hno Hin. apply Hno. exists i. split; [by apply list_elem_of_In|lia].
  - intros Hno (a & Hin & Heq). apply Hno.
    apply Z.eqb_eq in Heq. subst a. by apply list_elem_of_In.
Qed.

Lemma not_found_false axes i : not_found axes i = false ↔ i ∈ axes.
Proof.
  rewrite <- not_true_iff_false, not_found_true.
  destruct (decide (i ∈ axes)); naive_solver.
Qed.

Lemma axes_empty_false axes : axes_empty axes = false ↔ axes ≠ [].
Proof. by destruct axes. Qed.

(** With [keepdims == 1] every iteration appends one dimension. *)
Lemma reduce_emit_keep_length axes input_shape (l : list Z) :
  length (flat_map (reduce_emit axes 1 input_shape) l) = length l.
Proof.
  induction l as [|i l IH]; [done|].
  cbn [flat_map]. rewrite length_app, IH. unfold reduce_emit.
  by destruct (negb (axes_empty axes) && not_found axes i).
Qed.

(** With [keepdims != 1] and an empty axes list nothing is appended. *)
Lemma reduce_emit_all_dropped keep_dims input_shape (l : list Z) :
  keep_dims ≠ 1 →
  flat_map (reduce_emit [] keep_dims input_shape) l = [].
Proof.
  intros Hkeep. induction l as [|i l IH]; [done|].
  cbn [flat_map]. rewrite IH. unfold reduce_emit. simpl.
  by destruct (Z.eqb_spec keep_dims 1).
Qed.

(** With [keepdims != 1] and a non-empty axes list the dimensions of the
    indices outside the list are appended, in order. *)
Lemma reduce_emit_dropped axes keep_dims input_shape (l : list Z) :
  keep_dims ≠ 1 → axes ≠ [] →
  flat_map (reduce_emit axes keep_dims input_shape) l
  = dim_at input_shape <$> filter (λ i, i ∉ axes) l.
Proof.
  intros Hkeep Hne. apply axes_empty_false in Hne.
  induction l as [|i l IH]; [done|].
  cbn [flat_map]. rewrite IH, filter_cons. unfold reduce_emit. rewrite Hne.
  cbn [negb andb].
  destruct (decide (i ∉ axes)) as [Hout|Hin].
  - apply not_found_true in Hout. by rewrite Hout.
  - assert (not_found axes i = false) as -> by (apply not_found_false; by apply dec_stable).
    by destruct (Z.eqb_spec keep_dims 1).
Qed.

(** The indices of [0 .. r-1] that occur in a list of in-range axes are as
    many as the distinct members of the list. *)
Lemma length_filter_members (axes : list Z) (r : Z) :
  Forall (λ a, 0 ≤ a < r) axes →
  length (filter (λ i, i ∈ axes) (seqZ 0 r)) = size (list_to_set axes : gset Z).
Proof.
  intros Hrange.
  rewrite <- (size_list_to_set (C := gset Z) (filter (λ i, i ∈ axes) (seqZ 0 r))).
  - f_equal. apply set_eq. intros a.
    rewrite !elem_of_list_to_set, list_elem_of_filter, elem_of_seqZ.
    rewrite Forall_forall in Hrange. split; [tauto|].
    intros Hin. split; [done|]. specialize (Hrange a Hin). lia.
  - apply NoDup_filter, NoDup_seqZ.
Qed.

Lemma length_filter_non_members (axes : list Z) (r : Z) :
  Forall (λ a, 0 ≤ a < r) axes →
  Z.of_nat (length (filter (λ i, i ∉ axes) (seqZ 0 r)))
  = Z.max 0 r - Z.of_nat (size (list_to_set axes : gset Z)).
Proof.
  intros Hrange. rewrite <- (length_filter_members axes r Hrange).
  pose proof (filter_app_complement (λ i, i ∈ axes) (seqZ 0 r)) as Hperm.
  apply Permutation_length in Hperm.
  rewrite length_app, length_seqZ in Hperm. lia.
Qed.


(** ** Output rank of the reduce family *)


Lemma input_ndim_nonneg ctx : 0 ≤ input_ndim ctx.
Proof. unfold input_ndim, dim_size. lia. Qed.





(** ** Output rank of the arg-reduce family *)

Lemma ArgReduceInference_has_shape ctx :
  hasNInputShapes ctx = true →
  is_Some (type_shape (outputType (ArgReduceInference ctx))).
Proof. intros Hknown. rewrite (ArgReduceInference_known _ Hknown). by eexists. Qed.

Lemma arg_emit_flat_map axis keep_dims input_shape (l : list Z) :
  flat_map (arg_emit axis keep_dims input_shape) l
  = flat_map (reduce_emit [axis] keep_dims input_shape) l.
Proof. apply flat_map_ext. intros i. apply arg_emit_reduce_emit. Qed.

Lemma ArgReduceInference_rank_keep ctx :
  hasNInputShapes ctx = true →
  get_keep_dims ctx = 1 →
  output_rank (ArgReduceInference ctx) = output_rank ctx + input_ndim ctx.
Proof.
  intros Hknown Hkeep. unfold output_rank.
  rewrite (ArgReduceInference_dims _ Hknown), Hkeep, length_app.
  rewrite arg_emit_flat_map, reduce_emit_keep_length, length_seqZ.
  pose proof (input_ndim_nonneg ctx). lia.
Qed.

Lemma ArgReduceInference_rank_drop ctx :
  hasNInputShapes ctx = true →
  get_keep_dims ctx ≠ 1 →
  0 ≤ get_axis ctx (input_ndim ctx) < input_ndim ctx →
  output_rank (ArgReduceInference ctx) = output_rank ctx + (input_ndim ctx - 1).
Proof.
  intros Hknown Hkeep Hrange. unfold output_rank.
  rewrite (ArgReduceInference_dims _ Hknown), length_app.
  rewrite arg_emit_flat_map, reduce_emit_dropped by done.
  rewrite length_fmap, Nat2Z.inj_add, length_filter_non_members
    by (by apply Forall_singleton).
  cbn [list_to_set foldr]. rewrite (right_id_L ∅ (∪)), size_singleton. lia.
Qed.

(** C2.  For an input shape of rank [r ≥ 1] that is available and a
    normalized axis in [0, r), the arg-reduce rule, started on an output
    descriptor that carries no dimension yet, produces an output shape of
    rank [r] when [keepdims == 1] and of rank [r - 1] when
    [keepdims == 0]. *)
Theorem arg_output_rank (ctx : InferenceContext) :
  hasNInputShapes ctx = true →
  output_dims ctx = [] →
  1 ≤ input_ndim ctx →
  0 ≤ get_axis ctx (input_ndim ctx) < input_ndim ctx →
  is_Some (type_shape (outputType (ArgReduceInference ctx)))
  ∧ (get_keep_dims ctx = 1 →
     output_rank (ArgReduceInference ctx) = input_ndim ctx)
  ∧ (get_keep_dims ctx = 0 →
     output_rank (ArgReduceInference ctx) = input_ndim ctx - 1).
Proof.
  intros Hknown Hfresh Hr Hrange.
  assert (output_rank ctx = 0) as Hzero by (unfold output_rank; by rewrite Hfresh).
  split; [by apply ArgReduceInference_has_shape|]. split.
  - intros Hkeep. rewrite ArgReduceInference_rank_keep by done. lia.
  - intros Hkeep. rewrite ArgReduceInference_rank_drop by (done || lia). lia.
Qed.

Lemma arg_output_rank_witness :
  output_rank (ArgReduceInference arg_output_rank_ctx)
  = input_ndim arg_output_rank_ctx - 1.
Proof.
  refine (proj2 (proj2 (arg_output_rank arg_output_rank_ctx _ _ _ _)) _).
  - reflexivity.
  - reflexivity.
  - vm_compute. discriminate.
  - vm_compute. split; [discriminate|reflexivity].
  - reflexivity.
Defined.

(** ** Unknown input shape *)

Lemma propagate_type_shape ctx :
  type_shape (outputType (propagateElemTypeFromInputToOutput ctx))
  = type_shape (outputType ctx).
Proof. destruct ctx as [attrs input [| |]]; done. Qed.

Lemma set_output_int64_type_shape ctx :
  type_shape (outputType (set_output_int64 ctx)) = type_shape (outputType ctx).
Proof. destruct ctx as [attrs input [| |]]; done. Qed.

(** C3.  When the shape of input 0 is unavailable, each rule is exactly its
    element-type step: the reduce rule returns what the propagation of the
    element type returns, the arg-reduce rule what the guarded write of
    [INT64] returns.  The rules are total functions on contexts (there is
    no error outcome), and the shape of the output descriptor is what it was
    on entry, so an unset output shape stays unset. *)
Theorem unknown_input_shape_type_only (ctx : InferenceContext) :
  hasNInputShapes ctx = false →
  (ReduceInference ctx = propagateElemTypeFromInputToOutput ctx
   ∧ type_elem_type (outputType (ReduceInference ctx)) = input_elem_type ctx
   ∧ type_shape (outputType (ReduceInference ctx)) = type_shape (outputType ctx))
  ∧ (ArgReduceInference ctx = set_output_int64 ctx
     ∧ type_shape (outputType (ArgReduceInference ctx))
       = type_shape (outputType ctx))
  ∧ (type_shape (outputType ctx) = None →
     type_shape (outputType (ReduceInference ctx)) = None
     ∧ type_shape (outputType (ArgReduceInference ctx)) = None).
Proof.
  intros Hunknown.
  rewrite (ReduceInference_unknown _ Hunknown), (ArgReduceInference_unknown _ Hunknown).
  rewrite propagate_type_shape, set_output_int64_type_shape.
  repeat split; try done.
Qed.

Lemma unknown_input_shape_witness :
  outputType (ReduceInference unknown_input_shape_ctx)
  = kTensorType {| elem_type := Some TensorProto_DataType_FLOAT; shape := None |}
  ∧ outputType (ArgReduceInference unknown_input_shape_ctx)
    = kTensorType {| elem_type := Some TensorProto_DataType_INT64; shape := None |}.
Proof.
  destruct (unknown_input_shape_type_only unknown_input_shape_ctx eq_refl)
    as ((-> & _) & (-> & _) & _).
  split; reflexivity.
Defined.

(** ** Element types *)

(** X10.  The arg-reduce rule leaves [INT64] in an output descriptor that was
    unset or a tensor type on entry, whatever element type it carried and
    whatever the input is. *)
Lemma ArgReduceInference_elem_type ctx :
  (∀ field, outputType ctx ≠ kOtherType field) →
  type_elem_type (outputType (ArgReduceInference ctx))
  = Some TensorProto_DataType_INT64.
Proof.
  intros Hplain.
  destruct (hasNInputShapes ctx) eqn:Hknown.
  - rewrite (ArgReduceInference_known _ Hknown). cbn [type_elem_type elem_type].
    destruct ctx as [attrs input [| |]]; [done|done|]. by destruct (Hplain field).
  - rewrite (ArgReduceInference_unknown _ Hknown).
    destruct ctx as [attrs input [| |]]; [done|done|]. by destruct (Hplain field).
Qed.

(** The guarded write of lines 137-142 alone leaves another type category
    untouched. *)
Lemma set_output_int64_other ctx field :
  outputType ctx = kOtherType field → set_output_int64 ctx = ctx.
Proof. intros Hother. unfold set_output_int64. by rewrite Hother. Qed.

(** X11.  The rule as a whole leaves an output descriptor of another type
    category exactly as it was as long as the input shape is unavailable. *)
Lemma ArgReduceInference_other_unknown ctx field :
  outputType ctx = kOtherType field →
  hasNInputShapes ctx = false →
  ArgReduceInference ctx = ctx.
Proof.
  intros Hother Hunknown. rewrite (ArgReduceInference_unknown _ Hunknown).
  by apply set_output_int64_other with field.
Qed.




(** C5.  The element type of the output after the reduce rule is the element
    type of the input, whether or not the input shape is available. *)
Theorem reduce_elem_type (ctx : InferenceContext) :
  type_elem_type (outputType (ReduceInference ctx)) = input_elem_type ctx.
Proof.
  destruct (hasNInputShapes ctx) eqn:Hknown.
  - by rewrite (ReduceInference_known _ Hknown).
  - by rewrite (ReduceInference_unknown _ Hknown).
Qed.

(** ** What the rules read *)

Lemma hasNInputShapes_input c1 c2 :
  inputType c1 = inputType c2 → hasNInputShapes c1 = hasNInputShapes c2.
Proof. unfold hasNInputShapes. by intros ->. Qed.

Lemma input_ndim_input c1 c2 :
  inputType c1 = inputType c2 → input_ndim c1 = input_ndim c2.
Proof. unfold input_ndim, input_shape_of. by intros ->. Qed.

(** The loops depend on [keepdims] only through the test [keep_dims == 1]. *)
Lemma reduce_loop_keep_test axes k1 k2 input_shape n s :
  (k1 =? 1) = (k2 =? 1) →
  reduce_loop axes k1 input_shape n s = reduce_loop axes k2 input_shape n s.
Proof.
  intros Htest. apply for_range_ext. intros j t.
  unfold reduce_body. by rewrite Htest.
Qed.

Lemma arg_loop_keep_test axis k1 k2 input_shape n s :
  (k1 =? 1) = (k2 =? 1) →
  arg_loop axis k1 input_shape n s = arg_loop axis k2 input_shape n s.
Proof.
  intros Htest. apply for_range_ext. intros j t.
  unfold arg_body. by rewrite Htest.
Qed.

(** The output of the reduce rule is determined by the two type descriptors,
    the test on the effective [keepdims] and the normalized axes. *)
Lemma ReduceInference_output_ext c1 c2 :
  inputType c1 = inputType c2 →
  outputType c1 = outputType c2 →
  (get_keep_dims c1 =? 1) = (get_keep_dims c2 =? 1) →
  normalized_axes c1 = normalized_axes c2 →
  outputType (ReduceInference c1) = outputType (ReduceInference c2).
Proof.
  intros Hin Hout Hkeep Haxes.
  pose proof (hasNInputShapes_input _ _ Hin) as Hsame.
  destruct (hasNInputShapes c2) eqn:Hknown.
  - rewrite (ReduceInference_known _ Hsame), (ReduceInference_known _ Hknown).
    fold (normalized_axes c1) (normalized_axes c2).
    rewrite (reduce_loop_keep_test _ _ _ _ _ _ Hkeep).
    rewrite Haxes, Hout, (input_ndim_input _ _ Hin).
    unfold input_elem_type, input_shape_of. by rewrite Hin.
  - rewrite (ReduceInference_unknown _ Hsame), (ReduceInference_unknown _ Hknown).
    unfold propagateElemTypeFromInputToOutput, input_elem_type.
    cbn [outputType update_output]. by rewrite Hin, Hout.
Qed.

(** The output of the arg-reduce rule is determined by the two type
    descriptors, the test on the effective [keepdims] and the normalized
    axis. *)
Lemma ArgReduceInference_output_ext c1 c2 :
  inputType c1 = inputType c2 →
  outputType c1 = outputType c2 →
  (get_keep_dims c1 =? 1) = (get_keep_dims c2 =? 1) →
  get_axis c1 (input_ndim c1) = get_axis c2 (input_ndim c2) →
  outputType (ArgReduceInference c1) = outputType (ArgReduceInference c2).
Proof.
  intros Hin Hout Hkeep Haxis.
  pose proof (hasNInputShapes_input _ _ Hin) as Hsame.
  assert (outputType (set_output_int64 c1) = outputType (set_output_int64 c2))
    as Hstep.
  { unfold set_output_int64. rewrite Hout.
    destruct (outputType c2) eqn:Hcase; cbn [outputType update_output];
      by rewrite ?Hout, ?Hcase. }
  destruct (hasNInputShapes c2) eqn:Hknown.
  - rewrite (ArgReduceInference_known _ Hsame), (ArgReduceInference_known _ Hknown).
    rewrite (arg_loop_keep_test _ _ _ _ _ _ Hkeep).
    rewrite Haxis, Hout, Hstep, (input_ndim_input _ _ Hin).
    unfold input_shape_of. by rewrite Hin.
  - by rewrite (ArgReduceInference_unknown _ Hsame), (ArgReduceInference_unknown _ Hknown).
Qed.

Lemma get_keep_dims_with_attribute name a ctx :
  name ≠ "keepdims" →
  get_keep_dims (with_attribute name a ctx) = get_keep_dims ctx.
Proof.
  intros Hname. unfold get_keep_dims, getAttribute, with_attribute.
  cbn [attributes]. by rewrite lookup_insert_ne.
Qed.

Lemma get_axes_with_attribute name a ctx :
  name ≠ "axes" →
  get_axes (with_attribute name a ctx) = get_axes ctx.
Proof.
  intros Hname. unfold get_axes, getAttribute, with_attribute.
  cbn [attributes]. by rewrite lookup_insert_ne.
Qed.

Lemma get_axis_with_attribute name a ctx r :
  name ≠ "axis" →
  get_axis (with_attribute name a ctx) r = get_axis ctx r.
Proof.
  intros Hname. unfold get_axis, getAttribute, with_attribute.
  cbn [attributes]. by rewrite lookup_insert_ne.
Qed.

Lemma normalize_axis_negative r a :
  - r ≤ a < 0 → normalize_axis r a = normalize_axis r (a + r).
Proof.
  intros Hrange. unfold normalize_axis.
  destruct (Z.ltb_spec a 0), (Z.ltb_spec (a + r) 0); lia.
Qed.

(** The shift of a negative axis stays in the 64-bit range: no wrap-around
    is involved in [axes[i] += input_ndim]. *)
Lemma normalize_axis_int64 r a :
  - 2 ^ 63 ≤ a < 2 ^ 63 → 0 ≤ r < 2 ^ 31 →
  - 2 ^ 63 ≤ normalize_axis r a < 2 ^ 63.
Proof.
  intros Ha Hr. unfold normalize_axis. destruct (Z.ltb_spec a 0); lia.
Qed.

(** C6.  On an input of rank [r], a negative axis value [a] with
    [-r ≤ a < 0] and the value [a + r] give the same output descriptor
    (shape and element type): in the reduce rule at any position of the axes
    list, in the arg-reduce rule as the axis. *)
Theorem negative_axis_equivalent (ctx : InferenceContext) (a : Z) :
  - input_ndim ctx ≤ a < 0 →
  (∀ (pre post : list Z) (x : Z),
     outputType
       (ReduceInference
          (with_attribute "axes"
             {| attr_i := x; attr_ints := pre ++ a :: post |} ctx))
     = outputType
         (ReduceInference
            (with_attribute "axes"
               {| attr_i := x;
                  attr_ints := pre ++ (a + input_ndim ctx) :: post |} ctx)))
  ∧ (∀ (l : list Z),
       outputType
         (ArgReduceInference
            (with_attribute "axis" {| attr_i := a; attr_ints := l |} ctx))
       = outputType
           (ArgReduceInference
              (with_attribute "axis"
                 {| attr_i := a + input_ndim ctx; attr_ints := l |} ctx))).
Proof.
  intros Hrange. split.
  - intros pre post x. apply ReduceInference_output_ext; try done.
    { by rewrite !get_keep_dims_with_attribute. }
    unfold normalized_axes, get_axes, getAttribute, with_attribute.
    cbn [attributes]. rewrite !lookup_insert_eq. cbn [attr_ints].
    unfold normalize_axes. rewrite !map_app. cbn [map].
    do 2 f_equal. by apply normalize_axis_negative.
  - intros l. apply ArgReduceInference_output_ext; try done.
    { by rewrite !get_keep_dims_with_attribute. }
    unfold get_axis, getAttribute, with_attribute.
    cbn [attributes]. rewrite !lookup_insert_eq. cbn [attr_i].
    change (input_ndim _) with (input_ndim ctx).
    destruct (Z.ltb_spec a 0), (Z.ltb_spec (a + input_ndim ctx) 0); lia.
Qed.

Lemma negative_axis_witness :
  outputType
    (ReduceInference (with_attribute "axes" (ints_attr [0; -1]) negative_axis_ctx))
  = outputType
      (ReduceInference (with_attribute "axes" (ints_attr [0; 2]) negative_axis_ctx))
  ∧ outputType
      (ArgReduceInference (with_attribute "axis" (int_attr (-1)) negative_axis_ctx))
    = outputType
        (ArgReduceInference (with_attribute "axis" (int_attr 2) negative_axis_ctx)).
Proof.
  assert (- input_ndim negative_axis_ctx ≤ -1 < 0) as Hrange
    by (vm_compute; split; [discriminate|reflexivity]).
  destruct (negative_axis_equivalent negative_axis_ctx (-1) Hrange) as [Hred Harg].
  split; [exact (Hred [0] [] 0)|exact (Harg [])].
Defined.

(** ** Dimensions copied by the reduce rule *)

Lemma dim_at_lookup (s : TensorShapeProto) (i : Z) :
  0 ≤ i < dim_size s → dim s !! Z.to_nat i = Some (dim_at s i).
Proof.
  intros Hrange. unfold dim_at, dim_size in *.
  destruct (lookup_lt_is_Some_2 (dim s) (Z.to_nat i)) as [d Hd]; [lia|].
  rewrite Hd. f_equal. symmetry. by apply nth_lookup_Some.
Qed.

Lemma ReduceInference_shape_at ctx :
  hasNInputShapes ctx = true →
  type_shape (outputType (ReduceInference ctx))
  = Some (reduce_shape_at ctx (input_ndim ctx)).
Proof. intros Hknown. by rewrite (ReduceInference_known _ Hknown). Qed.

Lemma reduce_shape_at_succ ctx i :
  0 ≤ i →
  reduce_shape_at ctx (i + 1)
  = reduce_body (normalized_axes ctx) (get_keep_dims ctx) (input_shape_of ctx) i
      (reduce_shape_at ctx i).
Proof.
  intros Hi. unfold reduce_shape_at, reduce_loop.
  replace (Z.to_nat (i + 1)) with (S (Z.to_nat i)) by lia.
  rewrite for_range_snoc. f_equal. lia.
Qed.

(** Later loop states extend earlier ones. *)
Lemma reduce_shape_at_prefix ctx i j :
  0 ≤ i ≤ j →
  dim (reduce_shape_at ctx i) `prefix_of` dim (reduce_shape_at ctx j).
Proof.
  intros Hij. unfold reduce_shape_at, reduce_loop.
  replace (Z.to_nat j) with (Z.to_nat i + Z.to_nat (j - i))%nat by lia.
  rewrite for_range_app.
  eexists. apply (appending_loop_dim _ _ (reduce_body_dim _ _ _)).
Qed.

(** C7.  In the reduce rule with a non-empty normalized axes list, the
    iteration of an index [i] of [0 .. rank-1] that is not in the list appends
    a copy of input dimension [i] at the next free output slot; the final
    output shape holds at that slot exactly what the input shape holds at
    [i] (a concrete size, a symbolic name or an unknown dimension alike), and
    the slots of later indices come later. *)
Theorem reduce_copies_unselected (ctx : InferenceContext) (i : Z) :
  hasNInputShapes ctx = true →
  normalized_axes ctx ≠ [] →
  0 ≤ i < input_ndim ctx →
  i ∉ normalized_axes ctx →
  reduce_shape_at ctx (i + 1)
  = add_dim_copy (dim_at (input_shape_of ctx) i) (reduce_shape_at ctx i)
  ∧ is_Some (dim (input_shape_of ctx) !! Z.to_nat i)
  ∧ output_dims (ReduceInference ctx) !! next_slot ctx i
    = dim (input_shape_of ctx) !! Z.to_nat i
  ∧ (∀ j, i < j ≤ input_ndim ctx → (next_slot ctx i < next_slot ctx j)%nat).
Proof.
  intros Hknown Hne Hi Hout.
  assert (reduce_shape_at ctx (i + 1)
          = add_dim_copy (dim_at (input_shape_of ctx) i) (reduce_shape_at ctx i))
    as Hstep.
  { rewrite reduce_shape_at_succ by lia. unfold reduce_body.
    apply axes_empty_false in Hne. apply not_found_true in Hout.
    by rewrite Hne, Hout. }
  assert (∀ j, i < j ≤ input_ndim ctx →
            dim (reduce_shape_at ctx j) !! next_slot ctx i
            = Some (dim_at (input_shape_of ctx) i)
            ∧ (next_slot ctx i < next_slot ctx j)%nat) as Hlater.
  { intros j Hj.
    destruct (reduce_shape_at_prefix ctx (i + 1) j) as [rest Hrest]; [lia|].
    split.
    - rewrite Hrest, Hstep. cbn [add_dim_copy dim].
      rewrite <- app_assoc. by apply list_lookup_middle.
    - unfold next_slot. rewrite Hrest, Hstep. cbn [add_dim_copy dim].
      rewrite !length_app. cbn [length]. lia. }
  split; [done|].
  rewrite dim_at_lookup by done. split; [by eexists|]. split.
  - unfold output_dims. rewrite (ReduceInference_known _ Hknown).
    cbn [tensor_type shape_or_default shape].
    apply (Hlater (input_ndim ctx)). lia.
  - intros j Hj. by apply Hlater.
Qed.

Lemma reduce_copies_unselected_witness :
  output_dims (ReduceInference reduce_copies_ctx) !! next_slot reduce_copies_ctx 2
  = dim (input_shape_of reduce_copies_ctx) !! Z.to_nat 2.
Proof.
  refine (proj1 (proj2 (proj2
            (reduce_copies_unselected reduce_copies_ctx 2 _ _ _ _)))).
  - reflexivity.
  - vm_compute. discriminate.
  - vm_compute. split; [discriminate|reflexivity].
  - vm_compute. intros Hin. apply list_elem_of_In in Hin.
    destruct Hin as [Heq|[]]. discriminate Heq.
Defined.

(** ** The documented scenario with all axes reduced *)

(** C8.  On an input of shape [2,3,4], with the axes attribute omitted and
    [keepdims = 0], the reduce rule produces the output shape [] of rank 0
    (on an output descriptor that carries no dimension on entry). *)
Theorem reduce_all_axes_scenario (ctx : InferenceContext) (x : TypeProto_Tensor) :
  inputType ctx = Some (kTensorType x) →
  shape x = Some {| dim := [dim_value 2; dim_value 3; dim_value 4] |} →
  getAttribute ctx "axes" = None →
  get_keep_dims ctx = 0 →
  output_dims ctx = [] →
  type_shape (outputType (ReduceInference ctx)) = Some {| dim := [] |}
  ∧ output_rank (ReduceInference ctx) = 0.
Proof.
  intros Hin Hshape Haxes Hkeep Hfresh.
  assert (hasNInputShapes ctx = true) as Hknown.
  { unfold hasNInputShapes. rewrite Hin, Hshape. done. }
  assert (input_shape_of ctx
          = {| dim := [dim_value 2; dim_value 3; dim_value 4] |}) as Hish.
  { unfold input_shape_of. rewrite Hin. cbn [tensor_type].
    unfold shape_or_default. by rewrite Hshape. }
  assert (type_shape (outputType (ReduceInference ctx)) = Some {| dim := [] |})
    as Hresult.
  { rewrite (ReduceInference_known _ Hknown). cbn [type_shape shape].
    unfold input_ndim, get_axes. rewrite Haxes, Hkeep, Hish.
    unfold output_dims in Hfresh.
    destruct (shape_or_default (tensor_type (outputType ctx))) as [dims].
    cbn in Hfresh. subst dims. reflexivity. }
  split; [done|].
  unfold output_rank, output_dims, shape_or_default.
  destruct (outputType (ReduceInference ctx)) as [|y|]; try done.
  cbn in Hresult. cbn. by rewrite Hresult.
Qed.

Lemma reduce_all_axes_scenario_witness :
  type_shape
    (outputType
       (ReduceInference
          (fresh_ctx {[ "keepdims" := int_attr 0 ]}
             (Some (tensor_of TensorProto_DataType_FLOAT
                      [dim_value 2; dim_value 3; dim_value 4])))))
  = Some {| dim := [] |}.
Proof.
  refine (proj1 (reduce_all_axes_scenario
                   (fresh_ctx {[ "keepdims" := int_attr 0 ]}
                      (Some (tensor_of TensorProto_DataType_FLOAT
                               [dim_value 2; dim_value 3; dim_value 4])))
                   {| elem_type := Some TensorProto_DataType_FLOAT;
                      shape := Some {| dim := [dim_value 2; dim_value 3;
                                               dim_value 4] |} |}
                   _ _ _ _ _));
    reflexivity.
Defined.

(** ** Arg-reduce axis out of range *)

Lemma dim_at_seqZ (s : TensorShapeProto) :
  dim_at s <$> seqZ 0 (dim_size s) = dim s.
Proof.
  apply list_eq. intros n. rewrite list_lookup_fmap.
  destruct (decide (n < length (dim s))%nat) as [Hlt|Hge].
  - rewrite lookup_seqZ_lt by (unfold dim_size; lia). cbn [fmap option_fmap option_map].
    rewrite <- dim_at_lookup by (unfold dim_size; lia).
    by rewrite Z.add_0_l, Nat2Z.id.
  - rewrite lookup_seqZ_ge by (unfold dim_size; lia).
    symmetry. apply lookup_ge_None. lia.
Qed.

Lemma arg_emit_never_selected axis keep_dims input_shape (l : list Z) :
  axis ∉ l →
  flat_map (arg_emit axis keep_dims input_shape) l = dim_at input_shape <$> l.
Proof.
  induction l as [|i l IH]; [done|]. intros Hout.
  apply not_elem_of_cons in Hout as [Hne Hout].
  cbn [flat_map fmap list_fmap]. rewrite IH by done. unfold arg_emit.
  by destruct (Z.eqb_spec i axis).
Qed.

(** C10.  When the normalized axis of the arg-reduce rule is outside
    [0, rank), the output shape (of a descriptor that carries no dimension
    on entry) is the input shape, dimension by dimension, and the output rank
    is the input rank, whatever [keepdims] is; the rule has no error
    outcome. *)
Theorem arg_axis_out_of_range (ctx : InferenceContext) :
  hasNInputShapes ctx = true →
  output_dims ctx = [] →
  ¬ (0 ≤ get_axis ctx (input_ndim ctx) < input_ndim ctx) →
  output_dims (ArgReduceInference ctx) = dim (input_shape_of ctx)
  ∧ output_rank (ArgReduceInference ctx) = input_ndim ctx.
Proof.
  intros Hknown Hfresh Hrange.
  assert (output_dims (ArgReduceInference ctx) = dim (input_shape_of ctx)) as Hdims.
  { rewrite (ArgReduceInference_dims _ Hknown), Hfresh. cbn [app].
    rewrite arg_emit_never_selected.
    - apply dim_at_seqZ.
    - rewrite elem_of_seqZ. lia. }
  split; [done|]. unfold output_rank. by rewrite Hdims.
Qed.

Lemma arg_axis_out_of_range_witness :
  output_dims
    (ArgReduceInference
       (fresh_ctx {[ "axis" := int_attr (-3); "keepdims" := int_attr 0 ]}
          (Some (tensor_of TensorProto_DataType_FLOAT
                   [dim_value 5; dim_param "K"]))))
  = [dim_value 5; dim_param "K"].
Proof.
  refine (proj1 (arg_axis_out_of_range _ _ _ _)).
  - reflexivity.
  - reflexivity.
  - vm_compute. intros [Hlo _]. by apply Hlo.
Defined.

(** ** Further properties of the two rules *)

(** *** What a rule leaves alone, and what it adds *)

Lemma ReduceInference_frame ctx :
  attributes (ReduceInference ctx) = attributes ctx
  ∧ inputType (ReduceInference ctx) = inputType ctx.
Proof.
  unfold ReduceInference.
  by destruct (negb (hasNInputShapes (propagateElemTypeFromInputToOutput ctx))).
Qed.

Lemma ArgReduceInference_frame ctx :
  attributes (ArgReduceInference ctx) = attributes ctx
  ∧ inputType (ArgReduceInference ctx) = inputType ctx.
Proof.
  unfold ArgReduceInference.
  destruct (negb (hasNInputShapes (set_output_int64 ctx)));
    cbn [attributes inputType update_output]; apply set_output_int64_frame.
Qed.

(** Everything a rule reads besides the output descriptor is a function of
    the attributes and of the input type. *)
Lemma reads_frame c1 c2 :
  attributes c1 = attributes c2 →
  inputType c1 = inputType c2 →
  hasNInputShapes c1 = hasNInputShapes c2
  ∧ get_keep_dims c1 = get_keep_dims c2
  ∧ normalized_axes c1 = normalized_axes c2
  ∧ input_shape_of c1 = input_shape_of c2
  ∧ input_ndim c1 = input_ndim c2
  ∧ get_axis c1 (input_ndim c1) = get_axis c2 (input_ndim c2).
Proof.
  intros Hattr Hin.
  unfold hasNInputShapes, get_keep_dims, normalized_axes, get_axes, get_axis,
    input_ndim, input_shape_of, getAttribute.
  by rewrite Hattr, Hin.
Qed.

Lemma ReduceInference_appended ctx :
  hasNInputShapes ctx = true →
  appended_by ReduceInference ctx
  = flat_map
      (reduce_emit (normalized_axes ctx) (get_keep_dims ctx) (input_shape_of ctx))
      (seqZ 0 (input_ndim ctx)).
Proof.
  intros Hknown. unfold appended_by.
  rewrite (ReduceInference_dims _ Hknown). apply drop_app_length.
Qed.

Lemma ArgReduceInference_appended ctx :
  hasNInputShapes ctx = true →
  appended_by ArgReduceInference ctx
  = flat_map
      (arg_emit (get_axis ctx (input_ndim ctx)) (get_keep_dims ctx)
         (input_shape_of ctx))
      (seqZ 0 (input_ndim ctx)).
Proof.
  intros Hknown. unfold appended_by.
  rewrite (ArgReduceInference_dims _ Hknown). apply drop_app_length.
Qed.

Lemma ReduceInference_output_dims ctx :
  hasNInputShapes ctx = true →
  output_dims (ReduceInference ctx)
  = output_dims ctx ++ appended_by ReduceInference ctx.
Proof.
  intros Hknown. rewrite (ReduceInference_appended _ Hknown).
  by apply ReduceInference_dims.
Qed.

Lemma ArgReduceInference_output_dims ctx :
  hasNInputShapes ctx = true →
  output_dims (ArgReduceInference ctx)
  = output_dims ctx ++ appended_by ArgReduceInference ctx.
Proof.
  intros Hknown. rewrite (ArgReduceInference_appended _ Hknown).
  by apply ArgReduceInference_dims.
Qed.

(** X1.  The rules add to the output shape, they do not reset it: the
    dimensions the output descriptor holds on entry stay in front, and a
    second invocation on the result of the first adds the same dimensions
    once more.  Both rules, input shape available. *)
Theorem rules_accumulate_dimensions (ctx : InferenceContext) :
  hasNInputShapes ctx = true →
  (output_dims (ReduceInference ctx)
   = output_dims ctx ++ appended_by ReduceInference ctx
   ∧ output_dims (ReduceInference (ReduceInference ctx))
     = output_dims ctx ++ appended_by ReduceInference ctx
       ++ appended_by ReduceInference ctx)
  ∧ (output_dims (ArgReduceInference ctx)
     = output_dims ctx ++ appended_by ArgReduceInference ctx
     ∧ output_dims (ArgReduceInference (ArgReduceInference ctx))
       = output_dims ctx ++ appended_by ArgReduceInference ctx
         ++ appended_by ArgReduceInference ctx).
Proof.
  intros Hknown. split.
  - destruct (ReduceInference_frame ctx) as [Hattr Hin].
    destruct (reads_frame _ _ Hattr Hin) as (Hk & Hkeep & Haxes & Hsh & Hnd & _).
    rewrite Hknown in Hk.
    split; [by apply ReduceInference_output_dims|].
    rewrite (ReduceInference_output_dims _ Hk), (ReduceInference_appended _ Hk).
    rewrite Hkeep, Haxes, Hsh, Hnd, <- (ReduceInference_appended _ Hknown).
    by rewrite (ReduceInference_output_dims _ Hknown), <- app_assoc.
  - destruct (ArgReduceInference_frame ctx) as [Hattr Hin].
    destruct (reads_frame _ _ Hattr Hin) as (Hk & Hkeep & _ & Hsh & Hnd & Hax).
    rewrite Hknown in Hk.
    split; [by apply ArgReduceInference_output_dims|].
    rewrite (ArgReduceInference_output_dims _ Hk), (ArgReduceInference_appended _ Hk).
    rewrite Hkeep, Hax, Hsh, Hnd, <- (ArgReduceInference_appended _ Hknown).
    by rewrite (ArgReduceInference_output_dims _ Hknown), <- app_assoc.
Qed.

Lemma rules_accumulate_dimensions_witness :
  output_dims (ReduceInference (ReduceInference keepdims_ctx))
  = [dim_value 2; dim_value 1; dim_value 4; dim_value 2; dim_value 1; dim_value 4]
  ∧ output_dims (ArgReduceInference (ArgReduceInference keepdims_ctx))
    = [dim_value 2; dim_value 1; dim_value 4; dim_value 2; dim_value 1; dim_value 4].
Proof.
  destruct (rules_accumulate_dimensions keepdims_ctx eq_refl)
    as [[_ Hred] [_ Harg]].
  split.
  - exact (eq_trans Hred eq_refl).
  - exact (eq_trans Harg eq_refl).
Defined.

(** *** Bounds on the number of added dimensions *)

Lemma reduce_emit_length_le axes keep_dims input_shape (l : list Z) :
  (length (flat_map (reduce_emit axes keep_dims input_shape) l) ≤ length l)%nat.
Proof.
  induction l as [|i l IH]; [done|].
  cbn [flat_map]. rewrite length_app. unfold reduce_emit at 1.
  destruct (negb (axes_empty axes) && not_found axes i); [simpl; lia|].
  destruct (keep_dims =? 1); simpl; lia.
Qed.

(** X2.  Neither rule ever adds more dimensions than the input shape has,
    whatever the axes and [keepdims] values are (in range or not); and with
    [keepdims == 1] each adds exactly as many as the input rank, also for
    axes outside [0, rank). *)
Theorem added_dimensions_bounded (ctx : InferenceContext) :
  hasNInputShapes ctx = true →
  (Z.of_nat (length (appended_by ReduceInference ctx)) ≤ input_ndim ctx
   ∧ Z.of_nat (length (appended_by ArgReduceInference ctx)) ≤ input_ndim ctx)
  ∧ (get_keep_dims ctx = 1 →
     Z.of_nat (length (appended_by ReduceInference ctx)) = input_ndim ctx
     ∧ Z.of_nat (length (appended_by ArgReduceInference ctx)) = input_ndim ctx).
Proof.
  intros Hknown.
  rewrite (ReduceInference_appended _ Hknown), (ArgReduceInference_appended _ Hknown).
  rewrite arg_emit_flat_map.
  pose proof (input_ndim_nonneg ctx) as Hr.
  split.
  - split.
    + pose proof (reduce_emit_length_le (normalized_axes ctx) (get_keep_dims ctx)
                    (input_shape_of ctx) (seqZ 0 (input_ndim ctx))) as Hle.
      rewrite length_seqZ in Hle. lia.
    + pose proof (reduce_emit_length_le [get_axis ctx (input_ndim ctx)]
                    (get_keep_dims ctx) (input_shape_of ctx)
                    (seqZ 0 (input_ndim ctx))) as Hle.
      rewrite length_seqZ in Hle. lia.
  - intros ->. rewrite !reduce_emit_keep_length, length_seqZ. lia.
Qed.

Lemma added_dimensions_bounded_witness :
  Z.of_nat (length (appended_by ReduceInference out_of_range_axes_ctx))
  = input_ndim out_of_range_axes_ctx
  ∧ Z.of_nat (length (appended_by ArgReduceInference out_of_range_axes_ctx))
    = input_ndim out_of_range_axes_ctx.
Proof.
  exact (proj2 (added_dimensions_bounded out_of_range_axes_ctx eq_refl) eq_refl).
Defined.

(** *** The added dimensions, position by position *)

Lemma dim_at_seqZ_range (s : TensorShapeProto) (m n : Z) :
  0 ≤ m → 0 ≤ n → m + n ≤ dim_size s →
  dim_at s <$> seqZ m n = take (Z.to_nat n) (drop (Z.to_nat m) (dim s)).
Proof.
  intros Hm Hn Hlen. apply list_eq. intros k. rewrite list_lookup_fmap.
  destruct (decide (Z.of_nat k < n)) as [Hlt|Hge].
  - rewrite lookup_seqZ_lt, lookup_take_lt, lookup_drop by lia.
    cbn [fmap option_fmap option_map].
    rewrite <- dim_at_lookup by lia. f_equal. lia.
  - rewrite lookup_seqZ_ge, lookup_take_ge by lia. done.
Qed.

Lemma is_reduced_false axes i :
  is_reduced axes i = false ↔ axes ≠ [] ∧ i ∉ axes.
Proof.
  unfold is_reduced. rewrite orb_false_iff, negb_false_iff.
  by rewrite axes_empty_false, not_found_true.
Qed.

Lemma reduce_emit_is_reduced axes keep_dims input_shape i :
  reduce_emit axes keep_dims input_shape i
  = if is_reduced axes i then (if keep_dims =? 1 then [dim_value 1] else [])
    else [dim_at input_shape i].
Proof.
  unfold reduce_emit, is_reduced.
  by destruct (axes_empty axes), (not_found axes i).
Qed.

Lemma reduce_emit_keep_map axes input_shape (l : list Z) :
  flat_map (reduce_emit axes 1 input_shape) l
  = (λ i, if is_reduced axes i then dim_value 1 else dim_at input_shape i) <$> l.
Proof.
  induction l as [|i l IH]; [done|].
  cbn [flat_map fmap list_fmap]. rewrite IH, reduce_emit_is_reduced.
  by destruct (is_reduced axes i).
Qed.

Lemma reduce_emit_drop_filter axes keep_dims input_shape (l : list Z) :
  keep_dims ≠ 1 →
  flat_map (reduce_emit axes keep_dims input_shape) l
  = dim_at input_shape <$> filter (λ i, is_reduced axes i = false) l.
Proof.
  intros Hkeep. induction l as [|i l IH]; [done|].
  cbn [flat_map]. rewrite IH, filter_cons, reduce_emit_is_reduced.
  destruct (Z.eqb_spec keep_dims 1); [done|].
  by destruct (is_reduced axes i).
Qed.

Lemma imap_over_indices (s : TensorShapeProto) (g : Z → Dimension → Dimension) :
  (λ i, g i (dim_at s i)) <$> seqZ 0 (dim_size s)
  = imap (λ k d, g (Z.of_nat k) d) (dim s).
Proof.
  apply list_eq. intros k. rewrite list_lookup_fmap, list_lookup_imap.
  destruct (decide (k < length (dim s))%nat) as [Hlt|Hge].
  - rewrite lookup_seqZ_lt by (unfold dim_size; lia).
    cbn [fmap option_fmap option_map]. rewrite Z.add_0_l.
    pose proof (dim_at_lookup s (Z.of_nat k)) as Hd.
    rewrite Nat2Z.id in Hd. rewrite Hd by (unfold dim_size; lia). done.
  - rewrite lookup_seqZ_ge by (unfold dim_size; lia).
    rewrite (proj2 (lookup_ge_None _ _)) by lia. done.
Qed.

(** X3.  With [keepdims == 1] the reduce rule adds one dimension per input
    dimension, in order: the concrete size 1 at an index that is reduced (the
    axes list is empty or holds the index), the input dimension itself
    elsewhere. *)
Theorem reduce_keepdims_shape (ctx : InferenceContext) :
  hasNInputShapes ctx = true →
  get_keep_dims ctx = 1 →
  appended_by ReduceInference ctx
  = imap (λ k d, if is_reduced (normalized_axes ctx) (Z.of_nat k)
                 then dim_value 1 else d)
      (dim (input_shape_of ctx)).
Proof.
  intros Hknown Hkeep.
  rewrite (ReduceInference_appended _ Hknown), Hkeep, reduce_emit_keep_map.
  apply (imap_over_indices (input_shape_of ctx)
           (λ i d, if is_reduced (normalized_axes ctx) i then dim_value 1 else d)).
Qed.

Lemma reduce_keepdims_shape_witness :
  appended_by ReduceInference keepdims_default_ctx
  = [dim_value 1; dim_param "N"; dim_not_set; dim_value 1].
Proof.
  exact (eq_trans (reduce_keepdims_shape keepdims_default_ctx eq_refl eq_refl)
           eq_refl).
Defined.

(** X4.  With [keepdims != 1] the reduce rule adds exactly the input
    dimensions of the indices that are not reduced, in increasing index
    order; what it adds is a subsequence of the input dimensions. *)
Theorem reduce_dropped_shape (ctx : InferenceContext) :
  hasNInputShapes ctx = true →
  get_keep_dims ctx ≠ 1 →
  appended_by ReduceInference ctx
  = dim_at (input_shape_of ctx)
      <$> filter (λ i, is_reduced (normalized_axes ctx) i = false)
            (seqZ 0 (input_ndim ctx))
  ∧ appended_by ReduceInference ctx `sublist_of` dim (input_shape_of ctx).
Proof.
  intros Hknown Hkeep.
  rewrite (ReduceInference_appended _ Hknown), reduce_emit_drop_filter by done.
  split; [done|].
  pose proof (sublist_filter (λ i, is_reduced (normalized_axes ctx) i = false)
                (seqZ 0 (input_ndim ctx))) as Hsub.
  apply (fmap_sublist (dim_at (input_shape_of ctx))) in Hsub.
  unfold input_ndim in Hsub at 2. by rewrite dim_at_seqZ in Hsub.
Qed.

Lemma reduce_dropped_shape_witness :
  appended_by ReduceInference reduce_copies_ctx
  = [dim_value 2; dim_param "batch"; dim_not_set].
Proof.
  refine (eq_trans (proj1 (reduce_dropped_shape reduce_copies_ctx eq_refl _))
            eq_refl).
  vm_compute. discriminate.
Defined.

Lemma arg_emit_split axis keep_dims (s : TensorShapeProto) :
  0 ≤ axis < dim_size s →
  flat_map (arg_emit axis keep_dims s) (seqZ 0 (dim_size s))
  = take (Z.to_nat axis) (dim s)
    ++ (if keep_dims =? 1 then [dim_value 1] else [])
    ++ drop (S (Z.to_nat axis)) (dim s).
Proof.
  intros Hrange.
  replace (dim_size s) with (axis + (1 + (dim_size s - axis - 1))) at 1 by lia.
  rewrite !seqZ_app, !flat_map_app, !Z.add_0_l by lia.
  rewrite (seqZ_cons axis 1), (seqZ_nil (Z.succ axis)) by lia.
  rewrite (arg_emit_never_selected _ _ _ (seqZ 0 axis))
    by (rewrite elem_of_seqZ; lia).
  rewrite (arg_emit_never_selected _ _ _ (seqZ (axis + 1) _))
    by (rewrite elem_of_seqZ; lia).
  rewrite !dim_at_seqZ_range by lia.
  cbn [flat_map]. unfold arg_emit. rewrite Z.eqb_refl. cbn [negb].
  rewrite app_nil_r. change (Z.to_nat 0) with 0%nat. cbn [drop].
  do 2 f_equal.
  replace (Z.to_nat (axis + 1)) with (S (Z.to_nat axis)) by lia.
  apply take_ge. rewrite length_drop. unfold dim_size in *. lia.
Qed.

(** X5.  With the normalized axis in [0, rank), what the arg-reduce rule adds
    is the list of input dimensions with the entry at the axis replaced by
    the concrete size 1 when [keepdims == 1], and with that entry deleted
    otherwise. *)
Theorem arg_shape_insert_delete (ctx : InferenceContext) :
  hasNInputShapes ctx = true →
  0 ≤ get_axis ctx (input_ndim ctx) < input_ndim ctx →
  (get_keep_dims ctx = 1 →
   appended_by ArgReduceInference ctx
   = <[Z.to_nat (get_axis ctx (input_ndim ctx)) := dim_value 1]>
       (dim (input_shape_of ctx)))
  ∧ (get_keep_dims ctx ≠ 1 →
     appended_by ArgReduceInference ctx
     = delete (Z.to_nat (get_axis ctx (input_ndim ctx)))
         (dim (input_shape_of ctx))).
Proof.
  intros Hknown Hrange.
  rewrite (ArgReduceInference_appended _ Hknown).
  unfold input_ndim in *. rewrite arg_emit_split by done.
  split.
  - intros ->. rewrite insert_take_drop by (unfold dim_size in *; lia). done.
  - intros Hkeep. rewrite delete_take_drop.
    by destruct (Z.eqb_spec (get_keep_dims ctx) 1).
Qed.

Lemma arg_shape_insert_delete_witness :
  appended_by ArgReduceInference arg_output_rank_ctx
  = [dim_value 5; dim_value 6].
Proof.
  refine (eq_trans
            (proj2 (arg_shape_insert_delete arg_output_rank_ctx eq_refl _) _)
            eq_refl).
  - vm_compute. split; [discriminate|reflexivity].
  - vm_compute. discriminate.
Defined.

(** *** Which axes values matter *)

Lemma for_range_ext_range {S : Type} (body1 body2 : Z → S → S) n i s :
  (∀ j t, i ≤ j < i + Z.of_nat n → body1 j t = body2 j t) →
  for_range n i body1 s = for_range n i body2 s.
Proof.
  revert i s. induction n as [|n IH]; intros i s Hext; [done|].
  cbn [for_range]. rewrite Hext by lia. apply IH.
  intros j t Hj. apply Hext. lia.
Qed.

Lemma axes_empty_normalize r axes :
  axes_empty (normalize_axes r axes) = axes_empty axes.
Proof. by destruct axes. Qed.

Lemma not_found_iff axes1 axes2 i :
  (i ∈ axes1 ↔ i ∈ axes2) → not_found axes1 i = not_found axes2 i.
Proof.
  intros Hiff. destruct (not_found axes2 i) eqn:H2.
  - apply not_found_true. apply not_found_true in H2. tauto.
  - apply not_found_false. apply not_found_false in H2. tauto.
Qed.

(** X6.  The reduce rule uses the axes list only through two facts: whether
    the list is empty, and which indices of [0 .. rank-1] occur in it after
    normalization.  Order, repetitions and entries outside [0, rank) do not
    change the output descriptor. *)
Theorem reduce_axes_as_set (ctx : InferenceContext) (l1 l2 : list Z) (x1 x2 : Z) :
  axes_empty l1 = axes_empty l2 →
  (∀ i, 0 ≤ i < input_ndim ctx →
        i ∈ normalize_axes (input_ndim ctx) l1
        ↔ i ∈ normalize_axes (input_ndim ctx) l2) →
  outputType
    (ReduceInference
       (with_attribute "axes" {| attr_i := x1; attr_ints := l1 |} ctx))
  = outputType
      (ReduceInference
         (with_attribute "axes" {| attr_i := x2; attr_ints := l2 |} ctx)).
Proof.
  intros Hempty Hmem.
  set (c1 := with_attribute "axes" {| attr_i := x1; attr_ints := l1 |} ctx).
  set (c2 := with_attribute "axes" {| attr_i := x2; attr_ints := l2 |} ctx).
  assert (normalized_axes c1 = normalize_axes (input_ndim ctx) l1) as Hn1.
  { unfold normalized_axes, get_axes, getAttribute, c1, with_attribute.
    cbn [attributes]. by rewrite lookup_insert_eq. }
  assert (normalized_axes c2 = normalize_axes (input_ndim ctx) l2) as Hn2.
  { unfold normalized_axes, get_axes, getAttribute, c2, with_attribute.
    cbn [attributes]. by rewrite lookup_insert_eq. }
  assert (get_keep_dims c1 = get_keep_dims c2) as Hkeep.
  { unfold c1, c2. by rewrite !get_keep_dims_with_attribute. }
  destruct (hasNInputShapes ctx) eqn:Hknown.
  - rewrite (ReduceInference_known c1), (ReduceInference_known c2) by done.
    fold (normalized_axes c1) (normalized_axes c2).
    rewrite Hn1, Hn2, Hkeep. do 3 f_equal.
    change (input_shape_of c1) with (input_shape_of ctx).
    change (input_shape_of c2) with (input_shape_of ctx).
    change (input_ndim c1) with (input_ndim ctx).
    change (input_ndim c2) with (input_ndim ctx).
    change (outputType c1) with (outputType ctx).
    change (outputType c2) with (outputType ctx).
    unfold reduce_loop. apply for_range_ext_range. intros j t Hj.
    assert (0 ≤ j < input_ndim ctx) as Hin
      by (pose proof (input_ndim_nonneg ctx); lia).
    unfold reduce_body.
    by rewrite !axes_empty_normalize, Hempty, (not_found_iff _ _ j (Hmem j Hin)).
  - by rewrite (ReduceInference_unknown c1), (ReduceInference_unknown c2).
Qed.

Lemma reduce_axes_as_set_witness :
  outputType
    (ReduceInference (with_attribute "axes" (ints_attr [2; -3; 2; 9]) negative_axis_ctx))
  = outputType
      (ReduceInference (with_attribute "axes" (ints_attr [0; 2]) negative_axis_ctx)).
Proof.
  refine (reduce_axes_as_set negative_axis_ctx [2; -3; 2; 9] [0; 2] 0 0 eq_refl _).
  intros i Hi. change (input_ndim negative_axis_ctx) with 3 in *.
  change (normalize_axes 3 [2; -3; 2; 9]) with [2; 0; 2; 9].
  change (normalize_axes 3 [0; 2]) with [0; 2].
  rewrite !elem_of_cons, !elem_of_nil. lia.
Defined.

Lemma reduce_emit_never_reduced axes keep_dims input_shape (l : list Z) :
  axes ≠ [] → (∀ i, i ∈ l → i ∉ axes) →
  flat_map (reduce_emit axes keep_dims input_shape) l = dim_at input_shape <$> l.
Proof.
  intros Hne. induction l as [|i l IH]; intros Hout; [done|].
  cbn [flat_map fmap list_fmap]. rewrite IH, reduce_emit_is_reduced.
  - assert (is_reduced axes i = false) as ->; [|done].
    apply is_reduced_false. split; [done|]. apply Hout. by left.
  - intros j Hj. apply Hout. by right.
Qed.

(** X7.  When the axes list of the reduce rule is not empty and none of its
    normalized values lies in [0, rank), nothing is reduced: the rule adds the
    input dimensions unchanged, for every [keepdims], and raises nothing. *)
Theorem reduce_axes_all_out_of_range (ctx : InferenceContext) :
  hasNInputShapes ctx = true →
  normalized_axes ctx ≠ [] →
  Forall (λ a, ¬ (0 ≤ a < input_ndim ctx)) (normalized_axes ctx) →
  appended_by ReduceInference ctx = dim (input_shape_of ctx).
Proof.
  intros Hknown Hne Hout.
  rewrite (ReduceInference_appended _ Hknown), reduce_emit_never_reduced.
  - apply dim_at_seqZ.
  - done.
  - intros i Hi Hin. rewrite Forall_forall in Hout.
    apply (Hout i Hin). apply elem_of_seqZ in Hi. lia.
Qed.

Lemma reduce_axes_all_out_of_range_witness :
  appended_by ReduceInference out_of_range_axes_ctx
  = [dim_value 2; dim_param "N"; dim_value 4].
Proof.
  refine (eq_trans
            (reduce_axes_all_out_of_range out_of_range_axes_ctx eq_refl _ _)
            eq_refl).
  - vm_compute. discriminate.
  - change (normalized_axes out_of_range_axes_ctx) with [7; -6].
    change (input_ndim out_of_range_axes_ctx) with 3.
    repeat constructor; lia.
Defined.

(** X8.  An axes attribute that is present with an empty list acts as an
    absent attribute; in both cases every axis is reduced: with
    [keepdims == 1] the rule adds as many dimensions of size 1 as the input
    has dimensions, otherwise it adds none. *)
Theorem reduce_empty_axes_reduces_all (ctx : InferenceContext) :
  getAttribute ctx "axes" = None →
  (∀ x,
     outputType
       (ReduceInference
          (with_attribute "axes" {| attr_i := x; attr_ints := [] |} ctx))
     = outputType (ReduceInference ctx))
  ∧ (hasNInputShapes ctx = true →
     appended_by ReduceInference ctx
     = if get_keep_dims ctx =? 1
       then replicate (length (dim (input_shape_of ctx))) (dim_value 1)
       else []).
Proof.
  intros Habsent.
  assert (normalized_axes ctx = []) as Hnone.
  { unfold normalized_axes, get_axes. by rewrite Habsent. }
  split.
  - intros x. apply ReduceInference_output_ext; try done.
    + by rewrite get_keep_dims_with_attribute.
    + rewrite Hnone. unfold normalized_axes, get_axes, getAttribute, with_attribute.
      cbn [attributes]. by rewrite lookup_insert_eq.
  - intros Hknown. rewrite (ReduceInference_appended _ Hknown), Hnone.
    destruct (Z.eqb_spec (get_keep_dims ctx) 1) as [->|Hkeep].
    + rewrite reduce_emit_keep_map. unfold input_ndim, dim_size.
      generalize (length (dim (input_shape_of ctx))). intros n.
      induction n as [|n IH]; [done|].
      rewrite seqZ_S, fmap_app, IH. cbn [fmap list_fmap is_reduced axes_empty orb].
      by rewrite <- replicate_cons_app.
    + by apply reduce_emit_all_dropped.
Qed.

Lemma reduce_empty_axes_reduces_all_witness :
  outputType
    (ReduceInference
       (with_attribute "axes" (ints_attr [])
          (fresh_ctx ∅
             (Some (tensor_of TensorProto_DataType_FLOAT
                      [dim_value 2; dim_not_set])))))
  = tensor_of TensorProto_DataType_FLOAT [dim_value 1; dim_value 1].
Proof.
  refine (eq_trans
            (proj1 (reduce_empty_axes_reduces_all
                      (fresh_ctx ∅
                         (Some (tensor_of TensorProto_DataType_FLOAT
                                  [dim_value 2; dim_not_set])))
                      eq_refl) 0)
            eq_refl).
Defined.

(** *** The arg-reduce rule against the reduce rule *)

Lemma arg_body_reduce_body axis keep_dims input_shape i s :
  arg_body axis keep_dims input_shape i s
  = reduce_body [axis] keep_dims input_shape i s.
Proof.
  unfold arg_body, reduce_body, not_found. simpl. by rewrite orb_false_r.
Qed.

Lemma get_axis_declared ctx r :
  get_axis ctx r = normalize_axis r (declared_axis ctx).
Proof.
  unfold get_axis, declared_axis, normalize_axis.
  by destruct (getAttribute ctx "axis").
Qed.

(** X9.  The shape the arg-reduce rule leaves in the output descriptor is the
    shape the reduce rule leaves there when its axes list is the one-element
    list holding the declared axis (0 when the attribute is absent), with the
    same [keepdims]; this holds whether or not the input shape is available
    and whether or not the axis is in range. *)
Theorem arg_shape_as_reduce (ctx : InferenceContext) :
  type_shape (outputType (ArgReduceInference ctx))
  = type_shape
      (outputType
         (ReduceInference
            (with_attribute "axes" (ints_attr [declared_axis ctx]) ctx))).
Proof.
  set (c := with_attribute "axes" (ints_attr [declared_axis ctx]) ctx).
  assert (normalized_axes c = [get_axis ctx (input_ndim ctx)]) as Haxes.
  { unfold normalized_axes, get_axes, getAttribute, c, with_attribute.
    cbn [attributes]. rewrite lookup_insert_eq. cbn [ints_attr attr_ints].
    change (input_ndim _) with (input_ndim ctx).
    by rewrite get_axis_declared. }
  assert (get_keep_dims c = get_keep_dims ctx) as Hkeep
    by (unfold c; by rewrite get_keep_dims_with_attribute).
  destruct (hasNInputShapes ctx) eqn:Hknown.
  - rewrite (ArgReduceInference_known _ Hknown), (ReduceInference_known c) by done.
    fold (normalized_axes c). rewrite Haxes, Hkeep. cbn [type_shape shape].
    f_equal. unfold arg_loop, reduce_loop. apply for_range_ext.
    intros j t. apply arg_body_reduce_body.
  - rewrite (ArgReduceInference_unknown _ Hknown), (ReduceInference_unknown c) by done.
    by rewrite set_output_int64_type_shape, propagate_type_shape.
Qed.

(** *** The element type written by the arg-reduce rule *)

Lemma ArgReduceInference_elem_type_witness :
  type_elem_type
    (outputType
       (ArgReduceInference
          {| attributes := ∅;
             inputType := Some (tensor_of TensorProto_DataType_FLOAT [dim_value 3]);
             outputType := tensor_of TensorProto_DataType_UINT8 [] |}))
  = Some TensorProto_DataType_INT64.
Proof.
  apply ArgReduceInference_elem_type. intros field. discriminate.
Defined.

Lemma ArgReduceInference_other_unknown_witness :
  ArgReduceInference
    {| attributes := ∅; inputType := None; outputType := kOtherType 5 |}
  = {| attributes := ∅; inputType := None; outputType := kOtherType 5 |}.
Proof.
  exact (ArgReduceInference_other_unknown
           {| attributes := ∅; inputType := None; outputType := kOtherType 5 |}
           5 eq_refl eq_refl).
Defined.

(** *** Normalization of the axes *)

(** X12.  Axes given the way numpy accepts them, each in [-rank, rank),
    normalize into [0, rank): for the axes list of the reduce rule and for
    the axis of the arg-reduce rule (whose default 0 needs a rank of at
    least 1). *)
Theorem valid_axes_normalize_in_range (ctx : InferenceContext) :
  (Forall (λ a, - input_ndim ctx ≤ a < input_ndim ctx) (get_axes ctx) →
   Forall (λ a, 0 ≤ a < input_ndim ctx) (normalized_axes ctx))
  ∧ (- input_ndim ctx ≤ declared_axis ctx < input_ndim ctx →
     0 ≤ get_axis ctx (input_ndim ctx) < input_ndim ctx).
Proof.
  split.
  - intros Hvalid. unfold normalized_axes, normalize_axes.
    apply Forall_fmap. eapply Forall_impl; [exact Hvalid|].
    intros a Ha. unfold compose, normalize_axis. cbv beta in Ha.
    destruct (Z.ltb_spec a 0); lia.
  - intros Hvalid. rewrite get_axis_declared. unfold normalize_axis.
    destruct (Z.ltb_spec (declared_axis ctx) 0); lia.
Qed.

Lemma valid_axes_normalize_in_range_witness :
  Forall (λ a, 0 ≤ a < input_ndim reduce_output_rank_ctx)
    (normalized_axes reduce_output_rank_ctx)
  ∧ 0 ≤ get_axis arg_output_rank_ctx (input_ndim arg_output_rank_ctx)
    < input_ndim arg_output_rank_ctx.
Proof.
  split.
  - apply (proj1 (valid_axes_normalize_in_range reduce_output_rank_ctx)).
    change (get_axes reduce_output_rank_ctx) with [-1; 0; 2].
    change (input_ndim reduce_output_rank_ctx) with 3.
    repeat constructor; lia.
  - apply (proj2 (valid_axes_normalize_in_range arg_output_rank_ctx)).
    change (declared_axis arg_output_rank_ctx) with (-2).
    change (input_ndim arg_output_rank_ctx) with 3. lia.
Defined.

(** X13.  The shift of a negative axis cannot overflow: for 64-bit attribute
    values and the rank of a shape (an [int], never negative), every
    normalized axis of the reduce rule and the normalized axis of the
    arg-reduce rule are again 64-bit values. *)
Theorem axis_shift_no_overflow (ctx : InferenceContext) :
  in_int (input_ndim ctx) →
  (Forall in_int64 (get_axes ctx) → Forall in_int64 (normalized_axes ctx))
  ∧ (in_int64 (declared_axis ctx) → in_int64 (get_axis ctx (input_ndim ctx))).
Proof.
  intros Hrank. pose proof (input_ndim_nonneg ctx) as Hr.
  unfold in_int, in_int64 in *. split.
  - intros Hattr. unfold normalized_axes, normalize_axes.
    apply Forall_fmap. eapply Forall_impl; [exact Hattr|].
    intros a Ha. unfold compose, normalize_axis. cbv beta in Ha.
    destruct (Z.ltb_spec a 0); lia.
  - intros Hattr. rewrite get_axis_declared. unfold normalize_axis.
    destruct (Z.ltb_spec (declared_axis ctx) 0); lia.
Qed.

Lemma axis_shift_no_overflow_witness :
  Forall in_int64 (normalized_axes extreme_axes_ctx)
  ∧ in_int64 (get_axis extreme_axes_ctx (input_ndim extreme_axes_ctx)).
Proof.
  assert (in_int (input_ndim extreme_axes_ctx)) as Hrank
    by (vm_compute; split; [discriminate|reflexivity]).
  destruct (axis_shift_no_overflow extreme_axes_ctx Hrank) as [Haxes Haxis].
  split.
  - apply Haxes. change (get_axes extreme_axes_ctx) with [- 2 ^ 63; 2 ^ 63 - 1].
    unfold in_int64. repeat constructor; lia.
  - apply Haxis. change (declared_axis extreme_axes_ctx) with (- 2 ^ 63).
    unfold in_int64. lia.
Defined.

(** ** Values of keepdims other than 0 and 1 *)

Lemma with_keepdims_reads ctx a :
  hasNInputShapes (with_attribute "keepdims" a ctx) = hasNInputShapes ctx
  ∧ get_keep_dims (with_attribute "keepdims" a ctx) = attr_i a
  ∧ normalized_axes (with_attribute "keepdims" a ctx) = normalized_axes ctx
  ∧ get_axis (with_attribute "keepdims" a ctx) (input_ndim ctx)
    = get_axis ctx (input_ndim ctx)
  ∧ input_shape_of (with_attribute "keepdims" a ctx) = input_shape_of ctx
  ∧ input_ndim (with_attribute "keepdims" a ctx) = input_ndim ctx.
Proof.
  split; [done|]. split; [|split; [|split; [|done]]].
  - unfold get_keep_dims, getAttribute, with_attribute.
    cbn [attributes]. by rewrite lookup_insert_eq.
  - unfold normalized_axes. by rewrite get_axes_with_attribute.
  - by rewrite get_axis_with_attribute.
Qed.

Lemma with_keepdims_reduce_appended ctx a :
  hasNInputShapes ctx = true →
  appended_by ReduceInference (with_attribute "keepdims" a ctx)
  = flat_map
      (reduce_emit (normalized_axes ctx) (attr_i a) (input_shape_of ctx))
      (seqZ 0 (input_ndim ctx)).
Proof.
  intros Hknown.
  destruct (with_keepdims_reads ctx a) as (Hk & Hkeep & Haxes & _ & Hsh & Hnd).
  rewrite ReduceInference_appended by (by rewrite Hk).
  by rewrite Hkeep, Haxes, Hsh, Hnd.
Qed.

Lemma with_keepdims_arg_appended ctx a :
  hasNInputShapes ctx = true →
  appended_by ArgReduceInference (with_attribute "keepdims" a ctx)
  = flat_map
      (reduce_emit [get_axis ctx (input_ndim ctx)] (attr_i a) (input_shape_of ctx))
      (seqZ 0 (input_ndim ctx)).
Proof.
  intros Hknown.
  destruct (with_keepdims_reads ctx a) as (Hk & Hkeep & _ & Hax & Hsh & Hnd).
  rewrite ArgReduceInference_appended by (by rewrite Hk).
  by rewrite arg_emit_flat_map, Hkeep, Hnd, Hax, Hsh.
Qed.

(** C9.  A [keepdims] value [k] other than 1 acts as 0 in both rules, and only
    the value 1 produces the dimension of size 1.  The output descriptor for
    [k] is the one obtained with [keepdims = 0]; an iteration at a selected
    axis leaves the output shape as it is for [k] and appends one dimension
    of concrete size 1 for the value 1; and with an available input shape the
    dimensions a rule adds are, for [k], the input dimensions of the axes
    that are not selected (every selected axis is dropped), and, for the
    value 1, one dimension per axis, of size 1 at each selected axis. *)
Theorem keepdims_other_than_one_drops (ctx : InferenceContext) (k : Z) :
  k ≠ 1 →
  (∀ l,
     outputType
       (ReduceInference
          (with_attribute "keepdims" {| attr_i := k; attr_ints := l |} ctx))
     = outputType
         (ReduceInference (with_attribute "keepdims" (int_attr 0) ctx)))
  ∧ (∀ l,
       outputType
         (ArgReduceInference
            (with_attribute "keepdims" {| attr_i := k; attr_ints := l |} ctx))
       = outputType
           (ArgReduceInference (with_attribute "keepdims" (int_attr 0) ctx)))
  ∧ (∀ axes input_shape i s,
       axes_empty axes = true ∨ i ∈ axes →
       reduce_body axes k input_shape i s = s
       ∧ dim (reduce_body axes 1 input_shape i s) = dim s ++ [dim_value 1])
  ∧ (∀ input_shape i s,
       arg_body i k input_shape i s = s
       ∧ dim (arg_body i 1 input_shape i s) = dim s ++ [dim_value 1])
  ∧ (hasNInputShapes ctx = true →
     ∀ l,
       appended_by ReduceInference
         (with_attribute "keepdims" {| attr_i := k; attr_ints := l |} ctx)
       = dim_at (input_shape_of ctx)
           <$> filter (λ j, is_reduced (normalized_axes ctx) j = false)
                 (seqZ 0 (input_ndim ctx))
       ∧ appended_by ReduceInference
           (with_attribute "keepdims" {| attr_i := 1; attr_ints := l |} ctx)
         = (λ j, if is_reduced (normalized_axes ctx) j
                 then dim_value 1 else dim_at (input_shape_of ctx) j)
             <$> seqZ 0 (input_ndim ctx)
       ∧ appended_by ArgReduceInference
           (with_attribute "keepdims" {| attr_i := k; attr_ints := l |} ctx)
         = dim_at (input_shape_of ctx)
             <$> filter
                   (λ j, is_reduced [get_axis ctx (input_ndim ctx)] j = false)
                   (seqZ 0 (input_ndim ctx))
       ∧ appended_by ArgReduceInference
           (with_attribute "keepdims" {| attr_i := 1; attr_ints := l |} ctx)
         = (λ j, if is_reduced [get_axis ctx (input_ndim ctx)] j
                 then dim_value 1 else dim_at (input_shape_of ctx) j)
             <$> seqZ 0 (input_ndim ctx)).
Proof.
  intros Hk.
  assert (∀ a, (get_keep_dims (with_attribute "keepdims" a ctx) =? 1)
               = (attr_i a =? 1)) as Hget.
  { intros a. by rewrite (proj1 (proj2 (with_keepdims_reads ctx a))). }
  assert ((k =? 1) = (0 =? 1)) as Htest by (by destruct (Z.eqb_spec k 1)).
  split; [|split; [|split; [|split]]].
  - intros l. apply ReduceInference_output_ext; try done.
    + by rewrite !Hget.
    + unfold normalized_axes. by rewrite !get_axes_with_attribute.
  - intros l. apply ArgReduceInference_output_ext; try done.
    + by rewrite !Hget.
    + by rewrite !get_axis_with_attribute.
  - intros axes input_shape i s Hsel. unfold reduce_body.
    assert (negb (axes_empty axes) && not_found axes i = false) as ->.
    { destruct Hsel as [->|Hin]; [done|].
      apply not_found_false in Hin. rewrite Hin. apply andb_false_r. }
    split; [by destruct (Z.eqb_spec k 1)|done].
  - intros input_shape i s. unfold arg_body. rewrite Z.eqb_refl. cbn [negb].
    split; [by destruct (Z.eqb_spec k 1)|done].
  - intros Hknown l.
    rewrite !with_keepdims_reduce_appended, !with_keepdims_arg_appended by done.
    cbn [attr_i].
    split; [by apply reduce_emit_drop_filter|].
    split; [apply reduce_emit_keep_map|].
    split; [by apply reduce_emit_drop_filter|apply reduce_emit_keep_map].
Qed.

Lemma keepdims_other_than_one_witness :
  appended_by ReduceInference
    (with_attribute "keepdims" (int_attr 2) keepdims_ctx)
  = [dim_value 2; dim_value 4]
  ∧ appended_by ReduceInference
      (with_attribute "keepdims" (int_attr 1) keepdims_ctx)
    = [dim_value 2; dim_value 1; dim_value 4]
  ∧ appended_by ArgReduceInference
      (with_attribute "keepdims" (int_attr 2) keepdims_ctx)
    = [dim_value 2; dim_value 4]
  ∧ appended_by ArgReduceInference
      (with_attribute "keepdims" (int_attr 1) keepdims_ctx)
    = [dim_value 2; dim_value 1; dim_value 4].
Proof.
  assert (2 ≠ 1) as Hk by discriminate.
  destruct (proj2 (proj2 (proj2 (proj2
              (keepdims_other_than_one_drops keepdims_ctx 2 Hk)))) eq_refl [])
    as (Hdrop & Hkeep & Hadrop & Hakeep).
  split; [exact (eq_trans Hdrop eq_refl)|].
  split; [exact (eq_trans Hkeep eq_refl)|].
  split; [exact (eq_trans Hadrop eq_refl)|exact (eq_trans Hakeep eq_refl)].
Defined.
